(** * VGLX orbit controls: a shallow embedding of [OrbitControls]

    Sources embedded here:
    - [include/vglx/math/vector2.hpp], [include/vglx/math/vector3.hpp]
      (the component-wise operators that the controller uses);
    - [src/nodes/orbit_controls.cpp] (the private [Impl] state, the
      constructor, [OnMouseEvent] and [OnUpdate]).

    The C++ [float] type is kept abstract: every definition is written over
    an arbitrary carrier [F] with the operations of the class [FloatOps].
    A theorem stated with no law about these operations therefore holds for
    IEEE-754 binary32.  The carrier [float32] is binary32, built on the
    Standard Library's [SpecFloat].  Where a theorem needs a law of
    arithmetic that binary32 satisfies for every operand, the law is a
    class ([CompareLaws], [MulComm]) and is proved for [float32]; a
    theorem that depends on the values at hand (finite, not NaN) is
    stated on [float32] with that condition as a hypothesis. *)

From Stdlib Require Import ZArith Bool Lia SpecFloat.

Set Implicit Arguments.

(** ** Scalars *)

(** The operations on [float] that the sources use.  [f_zero] is the
    literal [0.0f], [f_one] the literal [1.0f] of the vector headers,
    [f_min_radius] the literal [0.1f] of [OnUpdate];
    [f_eqb], [f_ltb], [f_leb] are [operator==], [operator<], [operator<=].
    [f_sin] and [f_cos] stand for [math::Sin] and [math::Cos], [f_eps] and
    [f_pi] for the safety margin and the constant pi of [Spherical]; their
    header is not among the sources, so they are left as parameters. *)
Class FloatOps (F : Type) : Type := {
  f_zero : F;
  f_one : F;
  f_min_radius : F;
  f_eps : F;
  f_pi : F;
  f_add : F -> F -> F;
  f_sub : F -> F -> F;
  f_mul : F -> F -> F;
  f_eqb : F -> F -> bool;
  f_ltb : F -> F -> bool;
  f_leb : F -> F -> bool;
  f_sin : F -> F;
  f_cos : F -> F
}.

(** [std::max(a, b)] is [(a < b) ? b : a]. *)
Definition f_max {F} {FO : FloatOps F} (a b : F) : F :=
  if f_ltb a b then b else a.

(** The C++ [a != b] is [!(a == b)]. *)
Definition f_neqb {F} {FO : FloatOps F} (a b : F) : bool :=
  negb (f_eqb a b).

(** ** Vectors ([vector2.hpp], [vector3.hpp]) *)

Record Vector2 (F : Type) : Type := mkVector2 { v2_x : F; v2_y : F }.
Record Vector3 (F : Type) : Type := mkVector3 { v3_x : F; v3_y : F; v3_z : F }.

Arguments mkVector2 {F} _ _.
Arguments mkVector3 {F} _ _ _.

Section Vectors.
Context {F : Type} {FO : FloatOps F}.

(** [operator-(const Vector2&, const Vector2&)] *)
Definition v2_sub (a b : Vector2 F) : Vector2 F :=
  mkVector2 (f_sub (v2_x a) (v2_x b)) (f_sub (v2_y a) (v2_y b)).

(** [Vector3::Up()] *)
Definition v3_Up : Vector3 F := mkVector3 f_zero f_one f_zero.

(** [Vector3::Zero()], that is [Vector3 {0.0f}] *)
Definition v3_Zero : Vector3 F := mkVector3 f_zero f_zero f_zero.

(** [operator+(const Vector3&, const Vector3&)] *)
Definition v3_add (a b : Vector3 F) : Vector3 F :=
  mkVector3 (f_add (v3_x a) (v3_x b)) (f_add (v3_y a) (v3_y b))
            (f_add (v3_z a) (v3_z b)).

(** [operator-(const Vector3&, const Vector3&)] *)
Definition v3_sub (a b : Vector3 F) : Vector3 F :=
  mkVector3 (f_sub (v3_x a) (v3_x b)) (f_sub (v3_y a) (v3_y b))
            (f_sub (v3_z a) (v3_z b)).

(** [operator*(const Vector3&, float)] *)
Definition v3_scale (v : Vector3 F) (n : F) : Vector3 F :=
  mkVector3 (f_mul (v3_x v) n) (f_mul (v3_y v) n) (f_mul (v3_z v) n).

(** [Cross(const Vector3&, const Vector3&)] *)
Definition v3_Cross (a b : Vector3 F) : Vector3 F :=
  mkVector3
    (f_sub (f_mul (v3_y a) (v3_z b)) (f_mul (v3_z a) (v3_y b)))
    (f_sub (f_mul (v3_z a) (v3_x b)) (f_mul (v3_x a) (v3_z b)))
    (f_sub (f_mul (v3_x a) (v3_y b)) (f_mul (v3_y a) (v3_x b))).

(** [Vector3::operator-=]: [x -= v.x; y -= v.y; z -= v.z]. *)
Definition v3_sub_assign (a v : Vector3 F) : Vector3 F :=
  mkVector3 (f_sub (v3_x a) (v3_x v)) (f_sub (v3_y a) (v3_y v))
            (f_sub (v3_z a) (v3_z v)).
End Vectors.

(** ** The rest of the vector headers *)

(** Division and square root.  [f_div] is the C++ [operator/] on [float];
    [f_sqrt] stands for [math::Sqrt], whose header
    ([vglx/math/utilities.hpp]) is not among the sources, so it is a
    parameter. *)
Class FloatMath (F : Type) {FO : FloatOps F} : Type := {
  f_div : F -> F -> F;
  f_sqrt : F -> F
}.
Arguments FloatMath F {FO}.

(** [std::min(a, b)] is [(b < a) ? b : a]. *)
Definition f_min {F} {FO : FloatOps F} (a b : F) : F :=
  if f_ltb b a then b else a.

Section VectorAlgebra.
Context {F : Type} {FO : FloatOps F} {FM : FloatMath F}.

(** *** [Vector2] *)

(** [Vector2(float value)] *)
Definition v2_splat (value : F) : Vector2 F := mkVector2 value value.

(** [Vector2::Right()], [Vector2::Up()], [Vector2::Zero()] *)
Definition v2_Right : Vector2 F := mkVector2 f_one f_zero.
Definition v2_Up : Vector2 F := mkVector2 f_zero f_one.
Definition v2_Zero : Vector2 F := v2_splat f_zero.

(** [Dot(const Vector2&, const Vector2&)]: [a.x * b.x + a.y * b.y] *)
Definition v2_Dot (a b : Vector2 F) : F :=
  f_add (f_mul (v2_x a) (v2_x b)) (f_mul (v2_y a) (v2_y b)).

(** [Vector2::Length] and [Vector2::LengthSquared] *)
Definition v2_Length (v : Vector2 F) : F := f_sqrt (v2_Dot v v).
Definition v2_LengthSquared (v : Vector2 F) : F := v2_Dot v v.

(** [Vector2::operator[](int)].  The assertion [i >= 0 && i < 2] guards
    the switch: [None] is the failed assertion. *)
Definition v2_index (v : Vector2 F) (i : Z) : option F :=
  if (0 <=? i)%Z && (i <? 2)%Z
  then Some (match i with 0%Z => v2_x v | 1%Z => v2_y v | _ => v2_x v end)
  else None.

(** The same operator compiled with [NDEBUG]: the switch alone. *)
Definition v2_index_release (v : Vector2 F) (i : Z) : F :=
  match i with 0%Z => v2_x v | 1%Z => v2_y v | _ => v2_x v end.

(** [operator+], [operator*(const Vector2&, float)],
    [operator*(float, const Vector2&)], the component-wise [operator*] and
    [operator/(const Vector2&, float)], which multiplies by [1.0f / n] *)
Definition v2_add (a b : Vector2 F) : Vector2 F :=
  mkVector2 (f_add (v2_x a) (v2_x b)) (f_add (v2_y a) (v2_y b)).
Definition v2_scale (v : Vector2 F) (n : F) : Vector2 F :=
  mkVector2 (f_mul (v2_x v) n) (f_mul (v2_y v) n).
Definition v2_scale_left (n : F) (v : Vector2 F) : Vector2 F := v2_scale v n.
Definition v2_mul (a b : Vector2 F) : Vector2 F :=
  mkVector2 (f_mul (v2_x a) (v2_x b)) (f_mul (v2_y a) (v2_y b)).
Definition v2_div (v : Vector2 F) (n : F) : Vector2 F :=
  let n := f_div f_one n in
  mkVector2 (f_mul (v2_x v) n) (f_mul (v2_y v) n).

(** The compound assignments [+=], [-=], [*= float], [*= Vector2] *)
Definition v2_add_assign (a v : Vector2 F) : Vector2 F :=
  mkVector2 (f_add (v2_x a) (v2_x v)) (f_add (v2_y a) (v2_y v)).
Definition v2_sub_assign (a v : Vector2 F) : Vector2 F :=
  mkVector2 (f_sub (v2_x a) (v2_x v)) (f_sub (v2_y a) (v2_y v)).
Definition v2_scale_assign (a : Vector2 F) (n : F) : Vector2 F :=
  mkVector2 (f_mul (v2_x a) n) (f_mul (v2_y a) n).
Definition v2_mul_assign (a v : Vector2 F) : Vector2 F :=
  mkVector2 (f_mul (v2_x a) (v2_x v)) (f_mul (v2_y a) (v2_y v)).

(** [Vector2::Min] and [Vector2::Max] *)
Definition v2_Min (a v : Vector2 F) : Vector2 F :=
  mkVector2 (f_min (v2_x a) (v2_x v)) (f_min (v2_y a) (v2_y v)).
Definition v2_Max (a v : Vector2 F) : Vector2 F :=
  mkVector2 (f_max (v2_x a) (v2_x v)) (f_max (v2_y a) (v2_y v)).

(** The member [Vector2::Normalize]: a zero length leaves the vector as it
    is. *)
Definition v2_Normalize_member (v : Vector2 F) : Vector2 F :=
  let len := v2_Length v in
  if f_eqb len f_zero then v else v2_scale_assign v (f_div f_one len).

(** [Lerp(v1, v2, f)] is [v1 + (v2 - v1) * f]. *)
Definition v2_Lerp (v1 v2 : Vector2 F) (f : F) : Vector2 F :=
  v2_add v1 (v2_scale (v2_sub v2 v1) f).

(** The free function [Normalize(const Vector2&)]: a zero length gives
    [Vector2::Zero()]. *)
Definition v2_Normalize (v : Vector2 F) : Vector2 F :=
  let len := v2_Length v in
  if f_eqb len f_zero then v2_Zero else v2_scale v (f_div f_one len).

(** *** [Vector3] *)

(** [Vector3(float value)] *)
Definition v3_splat (value : F) : Vector3 F := mkVector3 value value value.

(** [Vector3::Forward()] and [Vector3::Right()] *)
Definition v3_Forward : Vector3 F := mkVector3 f_zero f_zero f_one.
Definition v3_Right : Vector3 F := mkVector3 f_one f_zero f_zero.

(** [Dot(const Vector3&, const Vector3&)]:
    [a.x * b.x + a.y * b.y + a.z * b.z] *)
Definition v3_Dot (a b : Vector3 F) : F :=
  f_add (f_add (f_mul (v3_x a) (v3_x b)) (f_mul (v3_y a) (v3_y b)))
        (f_mul (v3_z a) (v3_z b)).

(** [Vector3::Length] and [Vector3::LengthSquared] *)
Definition v3_Length (v : Vector3 F) : F := f_sqrt (v3_Dot v v).
Definition v3_LengthSquared (v : Vector3 F) : F := v3_Dot v v.

(** [Vector3::operator[](int)] behind its assertion [i >= 0 && i < 3];
    [None] is the failed assertion. *)
Definition v3_index (v : Vector3 F) (i : Z) : option F :=
  if (0 <=? i)%Z && (i <? 3)%Z
  then Some (match i with
             | 0%Z => v3_x v | 1%Z => v3_y v | 2%Z => v3_z v | _ => v3_x v
             end)
  else None.

(** The same operator compiled with [NDEBUG]. *)
Definition v3_index_release (v : Vector3 F) (i : Z) : F :=
  match i with
  | 0%Z => v3_x v | 1%Z => v3_y v | 2%Z => v3_z v | _ => v3_x v
  end.

(** [operator*(float, const Vector3&)], the component-wise [operator*] and
    [operator/(const Vector3&, float)] *)
Definition v3_scale_left (n : F) (v : Vector3 F) : Vector3 F := v3_scale v n.
Definition v3_mul (a b : Vector3 F) : Vector3 F :=
  mkVector3 (f_mul (v3_x a) (v3_x b)) (f_mul (v3_y a) (v3_y b))
            (f_mul (v3_z a) (v3_z b)).
Definition v3_div (v : Vector3 F) (n : F) : Vector3 F :=
  let n := f_div f_one n in
  mkVector3 (f_mul (v3_x v) n) (f_mul (v3_y v) n) (f_mul (v3_z v) n).

(** The compound assignments [+=], [*= float], [*= Vector3] *)
Definition v3_add_assign (a v : Vector3 F) : Vector3 F :=
  mkVector3 (f_add (v3_x a) (v3_x v)) (f_add (v3_y a) (v3_y v))
            (f_add (v3_z a) (v3_z v)).
Definition v3_scale_assign (a : Vector3 F) (n : F) : Vector3 F :=
  mkVector3 (f_mul (v3_x a) n) (f_mul (v3_y a) n) (f_mul (v3_z a) n).
Definition v3_mul_assign (a v : Vector3 F) : Vector3 F :=
  mkVector3 (f_mul (v3_x a) (v3_x v)) (f_mul (v3_y a) (v3_y v))
            (f_mul (v3_z a) (v3_z v)).

(** [Vector3::Min] and [Vector3::Max] *)
Definition v3_Min (a v : Vector3 F) : Vector3 F :=
  mkVector3 (f_min (v3_x a) (v3_x v)) (f_min (v3_y a) (v3_y v))
            (f_min (v3_z a) (v3_z v)).
Definition v3_Max (a v : Vector3 F) : Vector3 F :=
  mkVector3 (f_max (v3_x a) (v3_x v)) (f_max (v3_y a) (v3_y v))
            (f_max (v3_z a) (v3_z v)).

(** The member [Vector3::Normalize] *)
Definition v3_Normalize_member (v : Vector3 F) : Vector3 F :=
  let len := v3_Length v in
  if f_eqb len f_zero then v else v3_scale_assign v (f_div f_one len).

(** [Lerp(v1, v2, f)] is [v1 + (v2 - v1) * f]. *)
Definition v3_Lerp (v1 v2 : Vector3 F) (f : F) : Vector3 F :=
  v3_add v1 (v3_scale (v3_sub v2 v1) f).

(** The free function [Normalize(const Vector3&)] *)
Definition v3_Normalize (v : Vector3 F) : Vector3 F :=
  let len := v3_Length v in
  if f_eqb len f_zero then v3_Zero else v3_scale v (f_div f_one len).

(** A component relation, applied to each coordinate. *)
Definition v2_all (r : F -> F -> bool) (a b : Vector2 F) : bool :=
  r (v2_x a) (v2_x b) && r (v2_y a) (v2_y b).
Definition v3_all (r : F -> F -> bool) (a b : Vector3 F) : bool :=
  r (v3_x a) (v3_x b) && r (v3_y a) (v3_y b) && r (v3_z a) (v3_z b).
End VectorAlgebra.

(** ** Spherical coordinates *)

(** The fields [radius], [phi] (azimuth angle, initialised from [yaw]) and
    [theta] (polar angle, initialised from [pitch]) as [OnUpdate] and the
    constructor use them. *)
Record Spherical (F : Type) : Type := mkSpherical {
  radius : F;
  phi : F;
  theta : F
}.
Arguments mkSpherical {F} _ _ _.

Section SphericalOps.
Context {F : Type} {FO : FloatOps F}.

(** Lower and upper end of the safe interval for the polar angle. *)
Definition safe_lo : F := f_eps.
Definition safe_hi : F := f_sub f_pi f_eps.

(** Modelled from the spec: [Spherical::MakeSafe] lives in
    [vglx/math/spherical.hpp], which is not among the sources.  The
    specification says it clamps the polar angle into [[eps, pi - eps]]
    in place and touches nothing else. *)
Definition MakeSafe (sp : Spherical F) : Spherical F :=
  mkSpherical (radius sp) (phi sp)
    (if f_ltb (theta sp) safe_lo then safe_lo
     else if f_ltb safe_hi (theta sp) then safe_hi
     else theta sp).

(** Modelled from the spec: [Spherical::ToVector3] lives in
    [vglx/math/spherical.hpp], which is not among the sources.  Y-up
    convention of the specification:
    [x = radius * sin polar * sin azimuth], [y = radius * cos polar],
    [z = radius * sin polar * cos azimuth]. *)
Definition ToVector3 (sp : Spherical F) : Vector3 F :=
  mkVector3
    (f_mul (f_mul (radius sp) (f_sin (theta sp))) (f_sin (phi sp)))
    (f_mul (radius sp) (f_cos (theta sp)))
    (f_mul (f_mul (radius sp) (f_sin (theta sp))) (f_cos (phi sp))).

End SphericalOps.

(** ** The camera collaborator *)

(** Modelled from the spec: the class [Camera] (header
    [vglx/cameras/camera.hpp]) is not among the sources.  The specification
    gives its contract only: [Right()] and [Up()] are basis vectors derived
    from the current orientation, [SetPosition] stores a position and
    [LookAt] reorients the camera so that it faces a world point.  The
    orientation type and the three functions stay abstract. *)
Class CameraOps (F : Type) : Type := {
  Orientation : Type;
  look_rotation : Vector3 F -> Vector3 F -> Orientation;
  basis_right : Orientation -> Vector3 F;
  basis_up : Orientation -> Vector3 F
}.

Record Camera (F : Type) {CO : CameraOps F} : Type := mkCamera {
  transform_position : Vector3 F;
  orientation : Orientation
}.
Arguments Camera F {_}.
Arguments mkCamera {F _} _ _.

Section CameraModel.
Context {F : Type} {CO : CameraOps F}.

(** Modelled from the spec: [camera->Right()]. *)
Definition Camera_Right (c : Camera F) : Vector3 F :=
  basis_right (orientation c).

(** Modelled from the spec: [camera->Up()]. *)
Definition Camera_Up (c : Camera F) : Vector3 F :=
  basis_up (orientation c).

(** Modelled from the spec: [camera->transform.SetPosition(p)]. *)
Definition Transform_SetPosition (c : Camera F) (p : Vector3 F) : Camera F :=
  mkCamera p (orientation c).

(** Modelled from the spec: [camera->LookAt(t)] keeps the position and
    turns the camera, standing where it stands, towards [t]. *)
Definition Camera_LookAt (c : Camera F) (t : Vector3 F) : Camera F :=
  mkCamera (transform_position c) (look_rotation (transform_position c) t).
End CameraModel.

(** ** Pointer events *)

(** Modelled from the spec: [enum class MouseButton] is declared in a header
    that is not among the sources; the controller compares against [None],
    [Left] and [Right] only. *)
Inductive MouseButton : Type :=
| ButtonNone
| ButtonLeft
| ButtonRight
| ButtonMiddle.

Definition MouseButton_eqb (a b : MouseButton) : bool :=
  match a, b with
  | ButtonNone, ButtonNone => true
  | ButtonLeft, ButtonLeft => true
  | ButtonRight, ButtonRight => true
  | ButtonMiddle, ButtonMiddle => true
  | _, _ => false
  end.

(** Modelled from the spec: [MouseEvent::Type]. *)
Inductive MouseEventType : Type :=
| Moved
| ButtonPressed
| ButtonReleased
| Scrolled.

Definition MouseEventType_eqb (a b : MouseEventType) : bool :=
  match a, b with
  | Moved, Moved => true
  | ButtonPressed, ButtonPressed => true
  | ButtonReleased, ButtonReleased => true
  | Scrolled, Scrolled => true
  | _, _ => false
  end.

(** Modelled from the spec: the fields of [MouseEvent] that
    [OnMouseEvent] reads ([type], [position], [button], [scroll]). *)
Record MouseEvent (F : Type) : Type := mkMouseEvent {
  ev_type : MouseEventType;
  ev_position : Vector2 F;
  ev_button : MouseButton;
  ev_scroll : Vector2 F
}.
Arguments mkMouseEvent {F} _ _ _ _.

(** ** The controller ([orbit_controls.cpp]) *)

(** [OrbitControls::Parameters] ([orbit_controls.hpp]). *)
Record Parameters (F : Type) : Type := mkParameters {
  p_radius : F;
  p_pitch : F;
  p_yaw : F;
  p_orbit_speed : F;
  p_pan_speed : F;
  p_zoom_speed : F
}.
Arguments mkParameters {F} _ _ _ _ _ _.

(** [struct OrbitControls::Impl].  The camera is held by pointer in the
    source; the controller is its only writer here, so the pointee is kept
    in the state. *)
Record Impl (F : Type) {CO : CameraOps F} : Type := mkImpl {
  camera : Camera F;
  spherical : Spherical F;
  target : Vector3 F;
  curr_pos : Vector2 F;
  prev_pos : Vector2 F;
  curr_button : MouseButton;
  orbit_speed : F;
  pan_speed : F;
  zoom_speed : F;
  curr_scroll_offset : F
}.
Arguments Impl F {_}.
Arguments mkImpl {F _} _ _ _ _ _ _ _ _ _ _.

Section Controller.
Context {F : Type} {FO : FloatOps F} {CO : CameraOps F}.

(** *** Field assignments *)

Definition set_camera (s : Impl F) (c : Camera F) : Impl F :=
  mkImpl c (spherical s) (target s) (curr_pos s) (prev_pos s)
         (curr_button s) (orbit_speed s) (pan_speed s) (zoom_speed s)
         (curr_scroll_offset s).

Definition set_spherical (s : Impl F) (sp : Spherical F) : Impl F :=
  mkImpl (camera s) sp (target s) (curr_pos s) (prev_pos s)
         (curr_button s) (orbit_speed s) (pan_speed s) (zoom_speed s)
         (curr_scroll_offset s).

Definition set_target (s : Impl F) (t : Vector3 F) : Impl F :=
  mkImpl (camera s) (spherical s) t (curr_pos s) (prev_pos s)
         (curr_button s) (orbit_speed s) (pan_speed s) (zoom_speed s)
         (curr_scroll_offset s).

Definition set_curr_pos (s : Impl F) (p : Vector2 F) : Impl F :=
  mkImpl (camera s) (spherical s) (target s) p (prev_pos s)
         (curr_button s) (orbit_speed s) (pan_speed s) (zoom_speed s)
         (curr_scroll_offset s).

Definition set_prev_pos (s : Impl F) (p : Vector2 F) : Impl F :=
  mkImpl (camera s) (spherical s) (target s) (curr_pos s) p
         (curr_button s) (orbit_speed s) (pan_speed s) (zoom_speed s)
         (curr_scroll_offset s).

Definition set_curr_button (s : Impl F) (b : MouseButton) : Impl F :=
  mkImpl (camera s) (spherical s) (target s) (curr_pos s) (prev_pos s)
         b (orbit_speed s) (pan_speed s) (zoom_speed s)
         (curr_scroll_offset s).

Definition set_curr_scroll_offset (s : Impl F) (v : F) : Impl F :=
  mkImpl (camera s) (spherical s) (target s) (curr_pos s) (prev_pos s)
         (curr_button s) (orbit_speed s) (pan_speed s) (zoom_speed s) v.

(** *** Construction *)

(** [OrbitControls::OrbitControls(Camera*, const Parameters&)]: the
    member initialisers of [Impl] followed by the six assignments of the
    constructor body. *)
Definition OrbitControls_new (cam : Camera F) (params : Parameters F) : Impl F :=
  mkImpl cam
         (mkSpherical (p_radius params) (p_yaw params) (p_pitch params))
         v3_Zero
         (mkVector2 f_zero f_zero)
         (mkVector2 f_zero f_zero)
         ButtonNone
         (p_orbit_speed params) (p_pan_speed params) (p_zoom_speed params)
         f_zero.

(** *** [OrbitControls::OnMouseEvent] *)

Definition OnMouseEvent (event : MouseEvent F) (s : Impl F) : Impl F :=
  let s := set_curr_pos s (ev_position event) in
  let is_pressed := MouseEventType_eqb (ev_type event) ButtonPressed in
  let s :=
    if is_pressed && MouseButton_eqb (curr_button s) ButtonNone
    then set_curr_button s (ev_button event) else s in
  let is_released := MouseEventType_eqb (ev_type event) ButtonReleased in
  let s :=
    if is_released && MouseButton_eqb (ev_button event) (curr_button s)
    then set_curr_button s ButtonNone else s in
  if MouseEventType_eqb (ev_type event) Scrolled
  then set_curr_scroll_offset s (v2_y (ev_scroll event)) else s.

(** *** [OrbitControls::Impl::OnUpdate] *)

(** The three gate conditions, lines 34 to 36. *)
Definition do_orbit (s : Impl F) : bool :=
  MouseButton_eqb (curr_button s) ButtonLeft.
Definition do_pan (s : Impl F) : bool :=
  MouseButton_eqb (curr_button s) ButtonRight.
Definition do_zoom (s : Impl F) : bool :=
  f_neqb (curr_scroll_offset s) f_zero.

(** Body of [if (do_orbit)], lines 39 and 40. *)
Definition orbit_step (offset : Vector2 F) (s : Impl F) : Impl F :=
  let sp := spherical s in
  let sp := mkSpherical (radius sp)
              (f_sub (phi sp) (f_mul (v2_x offset) (orbit_speed s)))
              (theta sp) in
  let sp := mkSpherical (radius sp) (phi sp)
              (f_add (theta sp) (f_mul (v2_y offset) (orbit_speed s))) in
  set_spherical s sp.

(** Body of [if (do_zoom)], lines 44 to 46. *)
Definition zoom_step (s : Impl F) : Impl F :=
  let sp := spherical s in
  let sp := mkSpherical
              (f_sub (radius sp) (f_mul (curr_scroll_offset s) (zoom_speed s)))
              (phi sp) (theta sp) in
  let sp := mkSpherical (f_max f_min_radius (radius sp)) (phi sp) (theta sp) in
  set_curr_scroll_offset (set_spherical s sp) f_zero.

(** Body of [if (do_pan)], lines 50 to 53. *)
Definition pan_step (offset : Vector2 F) (s : Impl F) : Impl F :=
  let speed := f_mul (pan_speed s) (radius (spherical s)) in
  let right := Camera_Right (camera s) in
  let up := Camera_Up (camera s) in
  set_target s
    (v3_sub_assign (target s)
       (v3_scale
          (v3_sub (v3_scale right (v2_x offset)) (v3_scale up (v2_y offset)))
          speed)).

(** Line 33: [offset = curr_pos - prev_pos]. *)
Definition pointer_offset (s : Impl F) : Vector2 F :=
  v2_sub (curr_pos s) (prev_pos s).

(** Lines 33 to 56: the gestures and the pointer bookkeeping.  The three
    conditions are evaluated once, before any of the branches runs. *)
Definition gestures (s : Impl F) : Impl F :=
  let offset := pointer_offset s in
  let orbiting := do_orbit s in
  let panning := do_pan s in
  let zooming := do_zoom s in
  let s := if orbiting then orbit_step offset s else s in
  let s := if zooming then zoom_step s else s in
  let s := if panning then pan_step offset s else s in
  set_prev_pos s (curr_pos s).

(** Lines 58 to 60: the safety clamp and the camera commit. *)
Definition commit (s : Impl F) : Impl F :=
  let s := set_spherical s (MakeSafe (spherical s)) in
  let s := set_camera s
             (Transform_SetPosition (camera s)
                (v3_add (target s) (ToVector3 (spherical s)))) in
  set_camera s (Camera_LookAt (camera s) (target s)).

(** [OnUpdate(float delta)]; [delta] is [[maybe_unused]]. *)
Definition OnUpdate (delta : F) (s : Impl F) : Impl F :=
  commit (gestures s).

(** The radius is at least [0.1f]. *)
Definition radius_floor (s : Impl F) : Prop :=
  f_leb f_min_radius (radius (spherical s)) = true.

(** *** Reachable controller states *)

(** A state is reachable when the constructor built it or when it results
    from a reachable state by one event or one frame. *)
Inductive reachable : Impl F -> Prop :=
| reach_new : forall cam params, reachable (OrbitControls_new cam params)
| reach_event : forall event s, reachable s -> reachable (OnMouseEvent event s)
| reach_update : forall delta s, reachable s -> reachable (OnUpdate delta s).

(** [evolves s t]: the controller gets from [s] to [t] by events and
    frames, in any number and order. *)
Inductive evolves (s : Impl F) : Impl F -> Prop :=
| evolves_here : evolves s s
| evolves_event : forall event t, evolves s t -> evolves s (OnMouseEvent event t)
| evolves_update : forall delta t, evolves s t -> evolves s (OnUpdate delta t).
End Controller.

(** ** Runs of the controller without scrolling *)

Section Runs.
Context {F : Type} {FO : FloatOps F} {CO : CameraOps F}.

(** [scroll_free s t]: the controller gets from [s] to [t] by frames and by
    events other than [Scrolled]. *)
Inductive scroll_free (s : Impl F) : Impl F -> Prop :=
| scroll_free_here : scroll_free s s
| scroll_free_event :
    forall event t,
      scroll_free s t -> ev_type event <> Scrolled ->
      scroll_free s (OnMouseEvent event t)
| scroll_free_update :
    forall delta t, scroll_free s t -> scroll_free s (OnUpdate delta t).
End Runs.

(** ** Laws of the scalar operations *)

(** Facts about comparisons that IEEE-754 arithmetic satisfies for every
    operand, NaN included, and two facts about the constants: [0.1f] is
    comparable with itself and the safe interval is not empty ([pi - eps]
    is not below [eps]). *)
Class CompareLaws (F : Type) {FO : FloatOps F} : Prop := {
  f_ltb_leb : forall a b : F, f_ltb a b = true -> f_leb a b = true;
  f_ltb_irrefl : forall a : F, f_ltb a a = false;
  f_eqb_zero : f_eqb (f_zero : F) f_zero = true;
  f_leb_min_radius : f_leb (f_min_radius : F) f_min_radius = true;
  f_ltb_safe_hi_lo : f_ltb (safe_hi : F) safe_lo = false
}.

Arguments CompareLaws F {FO}.

(** Multiplication commutes.  IEEE-754 multiplication does, for every
    operand. *)
Class MulComm (F : Type) {FO : FloatOps F} : Prop := {
  f_mul_comm : forall a b : F, f_mul a b = f_mul b a
}.

Arguments MulComm F {FO}.

(** ** Carriers *)

(** *** IEEE-754 binary32, the C++ [float] *)
Module Float32.
Definition prec : Z := 24.
Definition emax : Z := 128.

Definition float32 : Type := spec_float.

Definition of_Z (z : Z) : float32 := binary_normalize prec emax z 0 false.
Definition ratio (p q : Z) : float32 := SFdiv prec emax (of_Z p) (of_Z q).

Definition zero : float32 := S754_zero false.
Definition one : float32 := Eval vm_compute in of_Z 1.
Definition four : float32 := Eval vm_compute in of_Z 4.
Definition five : float32 := Eval vm_compute in of_Z 5.
Definition quarter : float32 := Eval vm_compute in ratio 1 4.
(** [0.1f], bit pattern [0x3DCCCCCD] *)
Definition tenth : float32 := Eval vm_compute in ratio 1 10.
(** [0.01f] and [0.001f], the default orbit and pan speeds *)
Definition hundredth : float32 := Eval vm_compute in ratio 1 100.
Definition thousandth : float32 := Eval vm_compute in ratio 1 1000.
(** the [float] nearest to pi, bit pattern [0x40490FDB] *)
Definition pi : float32 := S754_finite false 13176795 (-22).

Definition add : float32 -> float32 -> float32 := SFadd prec emax.
Definition sub : float32 -> float32 -> float32 := SFsub prec emax.
Definition mul : float32 -> float32 -> float32 := SFmul prec emax.

(** Classes of binary32 values. *)
Definition is_zero (a : float32) : bool :=
  match a with S754_zero _ => true | _ => false end.
Definition is_neg_zero (a : float32) : bool :=
  match a with S754_zero true => true | _ => false end.
Definition is_finite (a : float32) : bool :=
  match a with S754_zero _ | S754_finite _ _ _ => true | _ => false end.

(** Low-order polynomials in place of the library sine and cosine; they
    only serve to run examples, no theorem depends on them. *)
Definition sin_cubic (a : float32) : float32 :=
  sub a (mul (mul (mul a a) a) (ratio 1 6)).
Definition cos_quadratic (a : float32) : float32 :=
  sub one (mul (mul a a) (ratio 1 2)).

#[global] Instance ops : FloatOps float32 := {
  f_zero := zero;
  f_one := one;
  f_min_radius := tenth;
  f_eps := thousandth;
  f_pi := pi;
  f_add := add;
  f_sub := sub;
  f_mul := mul;
  f_eqb := SFeqb;
  f_ltb := SFltb;
  f_leb := SFleb;
  f_sin := sin_cubic;
  f_cos := cos_quadratic
}.
End Float32.

(** *** A camera for the examples *)

(** Modelled from the spec: a camera whose orientation is the look-at frame
    of an eye point and a target: forward is [target - eye], right is
    [Cross(forward, Up)] and up is [Cross(right, forward)] (not
    normalised). *)
Module LookAtCamera.
Section Frame.
Context {F : Type} {FO : FloatOps F}.

Definition forward (o : Vector3 F * Vector3 F) : Vector3 F :=
  v3_sub (snd o) (fst o).
Definition right (o : Vector3 F * Vector3 F) : Vector3 F :=
  v3_Cross (forward o) v3_Up.
Definition up (o : Vector3 F * Vector3 F) : Vector3 F :=
  v3_Cross (right o) (forward o).

Definition ops : CameraOps F := {|
  Orientation := (Vector3 F * Vector3 F)%type;
  look_rotation := fun eye t => (eye, t);
  basis_right := right;
  basis_up := up
|}.
End Frame.
End LookAtCamera.

(** *** Division and square root of the carriers *)

Module Float32Math.
Import Float32.

Definition div : float32 -> float32 -> float32 := SFdiv prec emax.
Definition sqrt : float32 -> float32 := SFsqrt prec emax.

#[global] Instance ops : FloatMath float32 := {
  f_div := div;
  f_sqrt := sqrt
}.
End Float32Math.

(** *** binary32 with the parameters of [Spherical] left open *)

(** [Float32.ops] with the sine, the cosine, the safety margin and the
    constant pi as arguments: the arithmetic and the comparisons are those
    of binary32, and [Float32.ops] is
    [float32_ops_with Float32.sin_cubic Float32.cos_quadratic
    Float32.thousandth Float32.pi]. *)
Definition float32_ops_with
    (fsin fcos : Float32.float32 -> Float32.float32)
    (eps pi : Float32.float32) : FloatOps Float32.float32 := {|
  f_zero := Float32.zero;
  f_one := Float32.one;
  f_min_radius := Float32.tenth;
  f_eps := eps;
  f_pi := pi;
  f_add := Float32.add;
  f_sub := Float32.sub;
  f_mul := Float32.mul;
  f_eqb := SFeqb;
  f_ltb := SFltb;
  f_leb := SFleb;
  f_sin := fsin;
  f_cos := fcos
|}.

(** NaN, and vectors without a NaN component. *)
Definition is_nan (a : Float32.float32) : bool :=
  match a with S754_nan => true | _ => false end.

Definition no_nan2 (v : Vector2 Float32.float32) : bool :=
  negb (is_nan (v2_x v)) && negb (is_nan (v2_y v)).

Definition no_nan3 (v : Vector3 Float32.float32) : bool :=
  negb (is_nan (v3_x v)) && negb (is_nan (v3_y v)) && negb (is_nan (v3_z v)).

(** ** Example vectors *)

Module VectorExamples.
Import Float32.

(** [(1e8, 0, 0)] and [(1, 0, 0)] in binary32 *)
Definition far : Vector3 float32 := mkVector3 (of_Z 100000000) zero zero.
Definition near : Vector3 float32 := mkVector3 one zero zero.

(** [(2^-100, 0, 0)] in binary32: its square is below the least positive
    binary32 number. *)
Definition tiny : Vector3 float32 :=
  mkVector3 (S754_finite false 8388608 (-123)) zero zero.

(** [(1, 2, 3)] and [(4, 5, 6)] in binary32 *)
Definition u123 : Vector3 float32 := mkVector3 one (of_Z 2) (of_Z 3).
Definition u456 : Vector3 float32 := mkVector3 four five (of_Z 6).

End VectorExamples.

(** ** Tame binary32 states *)

(** A binary32 state is tame when the pointer position, the orbit speed,
    the pan speed scaled by the radius and the camera basis are finite, and
    neither an angle nor a target component is the negative zero.  On such
    a state offsets of zero act as in exact arithmetic. *)
Section Tame.
Import Float32.
Context {CO : CameraOps float32}.

Definition finite2 (v : Vector2 float32) : bool :=
  is_finite (v2_x v) && is_finite (v2_y v).

Definition finite3 (v : Vector3 float32) : bool :=
  is_finite (v3_x v) && is_finite (v3_y v) && is_finite (v3_z v).

Definition no_neg_zero3 (v : Vector3 float32) : bool :=
  negb (is_neg_zero (v3_x v)) && negb (is_neg_zero (v3_y v))
  && negb (is_neg_zero (v3_z v)).

Definition tame (s : Impl float32) : bool :=
  finite2 (curr_pos s)
  && is_finite (orbit_speed s)
  && is_finite (mul (pan_speed s) (radius (spherical s)))
  && finite3 (Camera_Right (camera s))
  && finite3 (Camera_Up (camera s))
  && negb (is_neg_zero (phi (spherical s)))
  && negb (is_neg_zero (theta (spherical s)))
  && no_neg_zero3 (target s).
End Tame.

(** ** Example states *)

(** The scenario of the class documentation on binary32: radius [5], pitch
    [0.436], yaw [0.785] and the default speeds [0.01], [0.001], [0.25]. *)
Module Examples.
Import Float32.
#[local] Existing Instance LookAtCamera.ops.

Definition origin2 : Vector2 float32 := mkVector2 zero zero.
Definition eye0 : Vector3 float32 := mkVector3 zero zero five.
Definition cam0 : Camera float32 :=
  mkCamera eye0 (look_rotation eye0 v3_Zero).

Definition params0 : Parameters float32 :=
  mkParameters five (ratio 436 1000) (ratio 785 1000)
               hundredth thousandth quarter.

Definition fresh : Impl float32 := OrbitControls_new cam0 params0.

Definition press (b : MouseButton) (p : Vector2 float32) : MouseEvent float32 :=
  mkMouseEvent ButtonPressed p b origin2.
Definition release (b : MouseButton) (p : Vector2 float32) : MouseEvent float32 :=
  mkMouseEvent ButtonReleased p b origin2.
Definition move (p : Vector2 float32) : MouseEvent float32 :=
  mkMouseEvent Moved p ButtonNone origin2.
Definition scroll (y : float32) : MouseEvent float32 :=
  mkMouseEvent Scrolled origin2 ButtonNone (mkVector2 zero y).

(** left button down at the origin, pointer moved to [(100, 0)] *)
Definition left_drag : Impl float32 :=
  OnMouseEvent (move (mkVector2 (of_Z 100) zero))
    (OnMouseEvent (press ButtonLeft origin2) fresh).

(** right button down at the origin, pointer moved to [(30, 40)], and a
    scroll tick of [4] pending *)
Definition right_drag : Impl float32 :=
  OnMouseEvent (mkMouseEvent Scrolled (mkVector2 (of_Z 30) (of_Z 40))
                             ButtonNone (mkVector2 zero four))
    (OnMouseEvent (press ButtonRight origin2) fresh).

(** a scroll tick of [4] on the fresh controller *)
Definition scrolled : Impl float32 := OnMouseEvent (scroll four) fresh.
End Examples.

(** ** States at the edge of binary32 *)

Module EdgeExamples.
Import Float32.
#[local] Existing Instance LookAtCamera.ops.

Definition infinity : float32 := S754_infinity false.


(** left button down at the origin, then a pointer event whose position
    has [x = +infinity] *)
Definition runaway_drag : Impl float32 :=
  OnMouseEvent (Examples.move (mkVector2 infinity zero))
    (OnMouseEvent (Examples.press ButtonLeft Examples.origin2) Examples.fresh).


End EdgeExamples.

(** ** The carriers satisfy the laws claimed for them *)

Lemma float32_compare_refl :
  forall a : Float32.float32, SFcompare a a <> Some Lt.
Proof.
  intros [s|s| |s m e]; simpl; try discriminate.
  - destruct s; discriminate.
  - destruct s; rewrite Z.compare_refl, Pos.compare_cont_refl; discriminate.
Qed.

Lemma float32_compare_laws : CompareLaws Float32.float32.
Proof.
  constructor; try reflexivity.
  - intros a b. cbn. unfold SFltb, SFleb.
    destruct (SFcompare a b) as [[]|]; intros E; (reflexivity || discriminate E).
  - intros a. cbn. unfold SFltb.
    pose proof (float32_compare_refl a) as N.
    destruct (SFcompare a a) as [[]|]; try reflexivity.
    exfalso; apply N; reflexivity.
Qed.

(** ** Properties of the controller *)

Section Structure.
Context {F : Type} {FO : FloatOps F} {CO : CameraOps F}.

(** *** What a frame leaves alone *)

Ltac frame_cases s :=
  unfold OnUpdate, commit, gestures, orbit_step, zoom_step, pan_step;
  destruct (do_orbit s), (do_zoom s), (do_pan s); reflexivity.

Lemma gestures_camera : forall s : Impl F, camera (gestures s) = camera s.
Proof. intros s. frame_cases s. Qed.

Lemma gestures_curr_pos : forall s : Impl F, curr_pos (gestures s) = curr_pos s.
Proof. intros s. frame_cases s. Qed.

Lemma gestures_prev_pos : forall s : Impl F, prev_pos (gestures s) = curr_pos s.
Proof. intros s. frame_cases s. Qed.

Lemma gestures_curr_button :
  forall s : Impl F, curr_button (gestures s) = curr_button s.
Proof. intros s. frame_cases s. Qed.

Lemma gestures_speeds :
  forall s : Impl F,
    orbit_speed (gestures s) = orbit_speed s /\
    pan_speed (gestures s) = pan_speed s /\
    zoom_speed (gestures s) = zoom_speed s.
Proof. intros s. repeat split; frame_cases s. Qed.

Lemma gestures_radius :
  forall s : Impl F,
    radius (spherical (gestures s)) =
    if do_zoom s
    then f_max f_min_radius
           (f_sub (radius (spherical s))
                  (f_mul (curr_scroll_offset s) (zoom_speed s)))
    else radius (spherical s).
Proof. intros s. frame_cases s. Qed.

Lemma gestures_scroll :
  forall s : Impl F,
    curr_scroll_offset (gestures s) =
    if do_zoom s then f_zero else curr_scroll_offset s.
Proof. intros s. frame_cases s. Qed.

Lemma commit_spherical :
  forall s : Impl F, spherical (commit s) = MakeSafe (spherical s).
Proof. reflexivity. Qed.

Lemma commit_target : forall s : Impl F, target (commit s) = target s.
Proof. reflexivity. Qed.

Lemma commit_camera :
  forall s : Impl F,
    camera (commit s) =
    Camera_LookAt
      (Transform_SetPosition (camera s)
         (v3_add (target s) (ToVector3 (MakeSafe (spherical s)))))
      (target s).
Proof. reflexivity. Qed.

Lemma MakeSafe_radius : forall sp : Spherical F, radius (MakeSafe sp) = radius sp.
Proof. reflexivity. Qed.

Lemma MakeSafe_phi : forall sp : Spherical F, phi (MakeSafe sp) = phi sp.
Proof. reflexivity. Qed.

Lemma OnMouseEvent_spherical :
  forall (event : MouseEvent F) (s : Impl F),
    spherical (OnMouseEvent event s) = spherical s.
Proof.
  intros event s. unfold OnMouseEvent.
  destruct (ev_type event); simpl;
    destruct (MouseButton_eqb (curr_button s) ButtonNone);
    destruct (MouseButton_eqb (ev_button event) (curr_button s));
    reflexivity.
Qed.

Lemma MouseButton_eqb_eq :
  forall a b : MouseButton, MouseButton_eqb a b = true <-> a = b.
Proof.
  intros a b; split.
  - destruct a, b; simpl; intros E; (reflexivity || discriminate E).
  - intros ->. destruct b; reflexivity.
Qed.

Lemma MouseButton_eqb_neq :
  forall a b : MouseButton, MouseButton_eqb a b = false <-> a <> b.
Proof.
  intros a b; split.
  - intros E ->. destruct b; discriminate E.
  - intros N. destruct a, b; simpl; try reflexivity; exfalso; apply N; reflexivity.
Qed.

(** *** The claims that hold for every scalar arithmetic *)

(** C1.  After [OnUpdate], whatever the state and [delta], the camera sits
    at [target + ToVector3(spherical)], both taken from the state the
    frame leaves behind; the camera is the old one after
    [SetPosition] of that point and [LookAt(target)], so its orientation
    is the look-at rotation from that point towards the target. *)
Theorem C1_derived_pose :
  forall (delta : F) (s : Impl F),
    let s' := OnUpdate delta s in
    let pose := v3_add (target s') (ToVector3 (spherical s')) in
    transform_position (camera s') = pose /\
    camera s' =
      Camera_LookAt (Transform_SetPosition (camera s) pose) (target s') /\
    orientation (camera s') = look_rotation pose (target s').
Proof.
  intros delta s. cbv zeta. unfold OnUpdate.
  rewrite commit_camera, commit_spherical, commit_target, gestures_camera.
  repeat split.
Qed.

(** C3.  With the left button held, one [OnUpdate] subtracts
    [dx * orbit_speed] from the azimuth angle [phi] and adds
    [dy * orbit_speed] to the polar angle [theta], where [(dx, dy)] is
    the pointer offset [curr_pos - prev_pos]; [gestures] is the state just
    before the safety clamp, which then acts on [theta] only.  The result
    of [OnUpdate] is the same for every [delta]. *)
Theorem C3_left_drag :
  forall (delta : F) (s : Impl F),
    curr_button s = ButtonLeft ->
    let dx := f_sub (v2_x (curr_pos s)) (v2_x (prev_pos s)) in
    let dy := f_sub (v2_y (curr_pos s)) (v2_y (prev_pos s)) in
    phi (spherical (gestures s)) =
      f_sub (phi (spherical s)) (f_mul dx (orbit_speed s)) /\
    theta (spherical (gestures s)) =
      f_add (theta (spherical s)) (f_mul dy (orbit_speed s)) /\
    phi (spherical (OnUpdate delta s)) =
      f_sub (phi (spherical s)) (f_mul dx (orbit_speed s)) /\
    spherical (OnUpdate delta s) = MakeSafe (spherical (gestures s)) /\
    (forall delta' : F, OnUpdate delta' s = OnUpdate delta s).
Proof.
  intros delta s B. cbv zeta.
  assert (G : phi (spherical (gestures s)) =
                f_sub (phi (spherical s))
                  (f_mul (f_sub (v2_x (curr_pos s)) (v2_x (prev_pos s)))
                         (orbit_speed s)) /\
              theta (spherical (gestures s)) =
                f_add (theta (spherical s))
                  (f_mul (f_sub (v2_y (curr_pos s)) (v2_y (prev_pos s)))
                         (orbit_speed s))).
  { unfold gestures, do_orbit, do_pan. rewrite B. simpl.
    destruct (do_zoom s); split; reflexivity. }
  destruct G as [Gphi Gtheta].
  split; [exact Gphi|]. split; [exact Gtheta|]. split.
  - unfold OnUpdate. rewrite commit_spherical, MakeSafe_phi. exact Gphi.
  - split; [reflexivity|]. intros delta'. reflexivity.
Qed.

(** C4.  The held-button latch.  A [ButtonPressed] event stores its button
    when no button is held and changes nothing otherwise; a
    [ButtonReleased] event clears the latch when its button is the held
    one and changes nothing otherwise; the other events never touch the
    latch. *)
Theorem C4_button_latch :
  forall (event : MouseEvent F) (s : Impl F),
    let held := curr_button s in
    let held' := curr_button (OnMouseEvent event s) in
    match ev_type event with
    | ButtonPressed =>
        (held = ButtonNone -> held' = ev_button event) /\
        (held <> ButtonNone -> held' = held)
    | ButtonReleased =>
        (ev_button event = held -> held' = ButtonNone) /\
        (ev_button event <> held -> held' = held)
    | Moved | Scrolled => held' = held
    end.
Proof.
  intros event s. cbv zeta. unfold OnMouseEvent.
  destruct (ev_type event); simpl.
  - reflexivity.
  - split; intros E.
    + rewrite E. reflexivity.
    + apply MouseButton_eqb_neq in E. rewrite E. reflexivity.
  - split; intros E.
    + apply MouseButton_eqb_eq in E. rewrite E. reflexivity.
    + apply MouseButton_eqb_neq in E. rewrite E. reflexivity.
  - reflexivity.
Qed.

(** C5.  With the right button held, [OnUpdate] moves the target by
    [target -= (right * dx - up * dy) * (pan_speed * radius)], with the
    basis vectors of the camera as the frame finds it and with the radius
    that the zoom step of the same frame has left: the zoomed and clamped
    radius when a scroll is pending, the old radius otherwise.  This is
    also the radius of the state after the frame. *)
Theorem C5_pan_after_zoom :
  forall (delta : F) (s : Impl F),
    curr_button s = ButtonRight ->
    let dx := f_sub (v2_x (curr_pos s)) (v2_x (prev_pos s)) in
    let dy := f_sub (v2_y (curr_pos s)) (v2_y (prev_pos s)) in
    let r :=
      if do_zoom s
      then f_max f_min_radius
             (f_sub (radius (spherical s))
                    (f_mul (curr_scroll_offset s) (zoom_speed s)))
      else radius (spherical s) in
    target (OnUpdate delta s) =
      v3_sub (target s)
        (v3_scale
           (v3_sub (v3_scale (Camera_Right (camera s)) dx)
                   (v3_scale (Camera_Up (camera s)) dy))
           (f_mul (pan_speed s) r)) /\
    radius (spherical (OnUpdate delta s)) = r.
Proof.
  intros delta s B. cbv zeta. split.
  - unfold OnUpdate. rewrite commit_target.
    unfold gestures, do_orbit, do_pan. rewrite B. simpl.
    destruct (do_zoom s); reflexivity.
  - unfold OnUpdate. rewrite commit_spherical, MakeSafe_radius.
    apply gestures_radius.
Qed.

(** C10.  [OnMouseEvent] stores the position of the event in [curr_pos]
    for each of the four event types and leaves [prev_pos] alone, so the
    offset that the next [OnUpdate] reads is the event's position minus
    [prev_pos], for button and scroll events as for moves. *)
Theorem C10_every_event_moves_pointer :
  forall (event : MouseEvent F) (s : Impl F),
    curr_pos (OnMouseEvent event s) = ev_position event /\
    prev_pos (OnMouseEvent event s) = prev_pos s /\
    pointer_offset (OnMouseEvent event s) =
      v2_sub (ev_position event) (prev_pos s).
Proof.
  intros event s.
  assert (E : curr_pos (OnMouseEvent event s) = ev_position event /\
              prev_pos (OnMouseEvent event s) = prev_pos s).
  { unfold OnMouseEvent.
    destruct (ev_type event); simpl;
      destruct (MouseButton_eqb (curr_button s) ButtonNone);
      destruct (MouseButton_eqb (ev_button event) (curr_button s));
      split; reflexivity. }
  destruct E as [E1 E2]. repeat split; try assumption.
  unfold pointer_offset. rewrite E1, E2. reflexivity.
Qed.
End Structure.

Section Gates.
Context {F : Type} {FO : FloatOps F} {CO : CameraOps F}.

(** One latch, one value: the orbit gate and the pan gate never open
    together. *)
Lemma orbit_excludes_pan :
  forall s : Impl F, do_orbit s = true -> do_pan s = false.
Proof.
  intros s. unfold do_orbit, do_pan.
  destruct (curr_button s); simpl; intros E; (reflexivity || discriminate E).
Qed.

(** C6, as the code has it.  The orbit gate and the pan gate exclude each
    other in every state, reachable or not.  The zoom gate is independent
    of both: as soon as some scalar [y] differs from [0.0f], a left press
    followed by a scroll of [y] reaches a state with the orbit and zoom
    gates open, and a right press followed by that scroll reaches a state
    with the pan and zoom gates open. *)
Theorem C6_gates_pairwise :
  forall (cam : Camera F) (params : Parameters F) (p : Vector2 F) (y : F),
    f_eqb y f_zero = false ->
    (forall s : Impl F, do_orbit s = true -> do_pan s = false) /\
    (exists s : Impl F,
        reachable s /\ do_orbit s = true /\ do_pan s = false /\
        do_zoom s = true) /\
    (exists s : Impl F,
        reachable s /\ do_pan s = true /\ do_orbit s = false /\
        do_zoom s = true).
Proof.
  intros cam params p y Y. split; [exact orbit_excludes_pan|]. split.
  - exists (OnMouseEvent (mkMouseEvent Scrolled p ButtonNone (mkVector2 y y))
              (OnMouseEvent (mkMouseEvent ButtonPressed p ButtonLeft (mkVector2 y y))
                 (OrbitControls_new cam params))).
    split; [do 2 apply reach_event; apply reach_new|].
    unfold do_orbit, do_pan, do_zoom, f_neqb. simpl. rewrite Y. repeat split.
  - exists (OnMouseEvent (mkMouseEvent Scrolled p ButtonNone (mkVector2 y y))
              (OnMouseEvent (mkMouseEvent ButtonPressed p ButtonRight (mkVector2 y y))
                 (OrbitControls_new cam params))).
    split; [do 2 apply reach_event; apply reach_new|].
    unfold do_orbit, do_pan, do_zoom, f_neqb. simpl. rewrite Y. repeat split.
Qed.
End Gates.

(** C6, as stated, fails: no state at all, over any scalar arithmetic and
    any camera, has the orbit gate, the pan gate and the zoom gate open
    together, because [curr_button] cannot be [Left] and [Right] at once. *)
Lemma C6_no_state_opens_all_three_gates :
  ~ (exists (F : Type) (FO : FloatOps F) (CO : CameraOps F) (s : Impl F),
        reachable s /\
        do_orbit s = true /\ do_pan s = true /\ do_zoom s = true).
Proof.
  intros (F & FO & CO & s & _ & O & P & _).
  apply orbit_excludes_pan in O. rewrite O in P. discriminate P.
Qed.

Section Floor.
Context {F : Type} {FO : FloatOps F} {CO : CameraOps F}.
Context {L : CompareLaws F}.

Lemma f_max_floor :
  forall a : F, f_leb f_min_radius (f_max f_min_radius a) = true.
Proof.
  intros a. unfold f_max. destruct (f_ltb f_min_radius a) eqn:E.
  - apply f_ltb_leb. exact E.
  - apply f_leb_min_radius.
Qed.

Lemma radius_floor_OnUpdate :
  forall (delta : F) (s : Impl F),
    radius_floor s -> radius_floor (OnUpdate delta s).
Proof.
  intros delta s R. unfold radius_floor, OnUpdate.
  rewrite commit_spherical, MakeSafe_radius, gestures_radius.
  destruct (do_zoom s); [apply f_max_floor | exact R].
Qed.

Lemma radius_floor_evolves :
  forall s t : Impl F, evolves s t -> radius_floor s -> radius_floor t.
Proof.
  intros s t E R. induction E as [|event t E IH|delta t E IH].
  - exact R.
  - unfold radius_floor. rewrite OnMouseEvent_spherical. exact IH.
  - apply radius_floor_OnUpdate. exact IH.
Qed.

(** C2.  When a scroll is pending ([curr_scroll_offset != 0.0f]),
    [OnUpdate] first subtracts [curr_scroll_offset * zoom_speed] from the
    radius and then takes [std::max(0.1f, radius)]; the radius it leaves
    is at least [0.1f], and it stays at least [0.1f] in every state that
    the controller gets to from there by events and frames.  The only
    facts about scalars used are those of [CompareLaws], which binary32
    satisfies. *)
Theorem C2_zoom_radius_floor :
  forall (delta : F) (s : Impl F),
    do_zoom s = true ->
    radius (spherical (OnUpdate delta s)) =
      f_max f_min_radius
        (f_sub (radius (spherical s))
               (f_mul (curr_scroll_offset s) (zoom_speed s))) /\
    f_leb f_min_radius (radius (spherical (OnUpdate delta s))) = true /\
    (forall t : Impl F,
        evolves (OnUpdate delta s) t ->
        f_leb f_min_radius (radius (spherical t)) = true).
Proof.
  intros delta s Z.
  assert (E : radius (spherical (OnUpdate delta s)) =
              f_max f_min_radius
                (f_sub (radius (spherical s))
                       (f_mul (curr_scroll_offset s) (zoom_speed s)))).
  { unfold OnUpdate. rewrite commit_spherical, MakeSafe_radius, gestures_radius, Z.
    reflexivity. }
  assert (R : radius_floor (OnUpdate delta s)).
  { unfold radius_floor. rewrite E. apply f_max_floor. }
  split; [exact E|]. split; [exact R|].
  intros t T. exact (radius_floor_evolves T R).
Qed.
End Floor.

Section Safety.
Context {F : Type} {FO : FloatOps F} {CO : CameraOps F}.
Context {L : CompareLaws F}.

Lemma MakeSafe_idempotent :
  forall sp : Spherical F, MakeSafe (MakeSafe sp) = MakeSafe sp.
Proof.
  intros [r p t]. unfold MakeSafe. simpl. f_equal.
  destruct (f_ltb t safe_lo) eqn:A.
  - rewrite f_ltb_irrefl, f_ltb_safe_hi_lo. reflexivity.
  - destruct (f_ltb safe_hi t) eqn:B.
    + rewrite f_ltb_safe_hi_lo, f_ltb_irrefl. reflexivity.
    + rewrite A, B. reflexivity.
Qed.

Lemma commit_idempotent : forall s : Impl F, commit (commit s) = commit s.
Proof.
  intros s. unfold commit. simpl. rewrite MakeSafe_idempotent. reflexivity.
Qed.

Lemma OnUpdate_consumes_scroll :
  forall (delta : F) (s : Impl F), do_zoom (OnUpdate delta s) = false.
Proof.
  intros delta s.
  assert (E : curr_scroll_offset (OnUpdate delta s) =
              if do_zoom s then f_zero else curr_scroll_offset s).
  { unfold OnUpdate. rewrite <- gestures_scroll. reflexivity. }
  unfold do_zoom at 1. rewrite E. destruct (do_zoom s) eqn:D.
  - unfold f_neqb. rewrite f_eqb_zero. reflexivity.
  - exact D.
Qed.
End Safety.

(** ** Idle frames on binary32 *)

Section IdleFloat32.
Import Float32.
Context {CO : CameraOps float32}.

Lemma sub_self : forall a : float32, is_finite a = true -> sub a a = zero.
Proof.
  intros [s|s| |s m e] A; try discriminate A.
  - destruct s; reflexivity.
  - unfold sub, SFsub. rewrite Z.sub_diag. reflexivity.
Qed.

Lemma mul_zero_l :
  forall z a : float32,
    is_zero z = true -> is_finite a = true -> is_zero (mul z a) = true.
Proof.
  intros [s|s| |s m e] [s'|s'| |s' m' e'] Z A;
    try discriminate Z; try discriminate A; reflexivity.
Qed.

Lemma mul_zero_r :
  forall a z : float32,
    is_finite a = true -> is_zero z = true -> is_zero (mul a z) = true.
Proof.
  intros [s|s| |s m e] [s'|s'| |s' m' e'] A Z;
    try discriminate Z; try discriminate A; reflexivity.
Qed.

Lemma sub_zeros :
  forall a b : float32,
    is_zero a = true -> is_zero b = true -> is_zero (sub a b) = true.
Proof.
  intros [s|s| |s m e] [s'|s'| |s' m' e'] A B;
    try discriminate A; try discriminate B.
  destruct s, s'; reflexivity.
Qed.

Lemma sub_zero_r :
  forall a z : float32,
    is_neg_zero a = false -> is_zero z = true -> sub a z = a.
Proof.
  intros [s|s| |s m e] [s'|s'| |s' m' e'] A Z;
    try discriminate Z; try reflexivity.
  destruct s, s'; (reflexivity || discriminate A).
Qed.

Lemma add_zero_r :
  forall a z : float32,
    is_neg_zero a = false -> is_zero z = true -> add a z = a.
Proof.
  intros [s|s| |s m e] [s'|s'| |s' m' e'] A Z;
    try discriminate Z; try reflexivity.
  destruct s, s'; (reflexivity || discriminate A).
Qed.

Lemma pan_component_idle :
  forall t r u speed : float32,
    is_neg_zero t = false -> is_finite r = true -> is_finite u = true ->
    is_finite speed = true ->
    sub t (mul (sub (mul r zero) (mul u zero)) speed) = t.
Proof.
  intros t r u speed T R U S.
  apply sub_zero_r; [exact T|].
  apply mul_zero_l; [|exact S].
  apply sub_zeros; apply mul_zero_r; (assumption || reflexivity).
Qed.

#[local] Opaque sub add mul.

Lemma gestures_idle_float32 :
  forall s : Impl float32,
    tame s = true -> prev_pos s = curr_pos s -> do_zoom s = false ->
    gestures s = s.
Proof.
  intros [cam [r p t] [tx ty tz] [cx cy] [px py] b os ps zs sc]; simpl.
  unfold tame, finite2, finite3, no_neg_zero3; simpl.
  intros T P Zm. injection P as -> ->.
  repeat match goal with
         | H : _ && _ = true |- _ => apply andb_prop in H; destruct H
         | H : negb _ = true |- _ => apply negb_true_iff in H
         end.
  unfold gestures, pointer_offset, do_orbit, do_pan. rewrite Zm. simpl.
  unfold v2_sub. simpl.
  change (@f_sub float32 ops) with sub.
  rewrite !sub_self by assumption.
  destruct b; simpl; try reflexivity.
  - unfold orbit_step. simpl.
    change (@f_sub float32 ops) with sub.
    change (@f_add float32 ops) with add.
    change (@f_mul float32 ops) with mul.
    assert (Zo : is_zero (mul zero os) = true)
      by (apply mul_zero_l; (assumption || reflexivity)).
    rewrite (sub_zero_r p (mul zero os)), (add_zero_r t (mul zero os))
      by assumption.
    reflexivity.
  - unfold pan_step, v3_sub_assign, v3_scale, v3_sub. simpl.
    change (@f_sub float32 ops) with sub.
    change (@f_mul float32 ops) with mul.
    rewrite !pan_component_idle; try assumption; reflexivity.
Qed.

#[local] Transparent sub add mul.

(** The idle-frame identity on binary32: if the state after a frame is
    tame, a second frame with no event in between returns that very
    state. *)
Lemma idle_frame_float32 :
  forall (delta1 delta2 : float32) (s : Impl float32),
    tame (OnUpdate delta1 s) = true ->
    OnUpdate delta2 (OnUpdate delta1 s) = OnUpdate delta1 s.
Proof.
  intros delta1 delta2 s T.
  assert (P : prev_pos (OnUpdate delta1 s) = curr_pos (OnUpdate delta1 s)).
  { change (prev_pos (gestures s) = curr_pos (gestures s)).
    rewrite gestures_prev_pos, gestures_curr_pos. reflexivity. }
  pose proof (@OnUpdate_consumes_scroll _ _ _ float32_compare_laws delta1 s) as D.
  unfold OnUpdate at 1. rewrite (gestures_idle_float32 _ T P D).
  unfold OnUpdate. apply (@commit_idempotent _ _ _ float32_compare_laws).
Qed.

End IdleFloat32.

Example idle_frame_float32_left_drag :
  OnUpdate Float32.four (OnUpdate Float32.one Examples.left_drag) =
  OnUpdate Float32.one Examples.left_drag.
Proof. apply idle_frame_float32. vm_compute. reflexivity. Qed.

Section Scroll.
Context {F : Type} {FO : FloatOps F} {CO : CameraOps F}.

Lemma OnMouseEvent_scrolled :
  forall (event : MouseEvent F) (s : Impl F),
    ev_type event = Scrolled ->
    OnMouseEvent event s =
    set_curr_scroll_offset (set_curr_pos s (ev_position event))
                           (v2_y (ev_scroll event)).
Proof.
  intros event s E. unfold OnMouseEvent. rewrite E. reflexivity.
Qed.

Lemma OnUpdate_zoom :
  forall (delta : F) (s : Impl F),
    do_zoom s = true ->
    curr_scroll_offset (OnUpdate delta s) = f_zero /\
    radius (spherical (OnUpdate delta s)) =
      f_max f_min_radius
        (f_sub (radius (spherical s))
               (f_mul (curr_scroll_offset s) (zoom_speed s))).
Proof.
  intros delta s Z. split.
  - change (curr_scroll_offset (gestures s) = f_zero).
    rewrite gestures_scroll, Z. reflexivity.
  - unfold OnUpdate. rewrite commit_spherical, MakeSafe_radius, gestures_radius, Z.
    reflexivity.
Qed.

Lemma OnUpdate_no_zoom :
  forall (delta : F) (s : Impl F),
    do_zoom s = false ->
    radius (spherical (OnUpdate delta s)) = radius (spherical s).
Proof.
  intros delta s Z. unfold OnUpdate.
  rewrite commit_spherical, MakeSafe_radius, gestures_radius, Z. reflexivity.
Qed.
End Scroll.

Section ScrollFloat32.
Import Float32.
Context {CO : CameraOps float32}.

(** C7, on binary32.  A [Scrolled] event overwrites
    [curr_scroll_offset] with [scroll.y], whatever was pending.  If that
    value differs from [0.0f], the next [OnUpdate] applies the zoom and
    resets [curr_scroll_offset] to [0.0f], so the frame after it finds the
    zoom gate closed and keeps the radius.  For [scroll.y = 4] and
    [zoom_speed = 0.25], with [radius - 1] above the floor [0.1f], the
    radius after the frame is [radius - 1] (the product [4 * 0.25] is
    exactly [1] in binary32) and the pending delta is [0.0f]. *)
Theorem C7_scroll_consumed_once :
  forall (event : MouseEvent float32) (s : Impl float32) (delta : float32),
    ev_type event = Scrolled ->
    let s1 := OnMouseEvent event s in
    let s2 := OnUpdate delta s1 in
    curr_scroll_offset s1 = v2_y (ev_scroll event) /\
    (do_zoom s1 = true ->
       curr_scroll_offset s2 = zero /\
       radius (spherical s2) =
         f_max tenth
           (sub (radius (spherical s))
                (mul (v2_y (ev_scroll event)) (zoom_speed s))) /\
       do_zoom s2 = false /\
       forall delta' : float32,
         radius (spherical (OnUpdate delta' s2)) = radius (spherical s2)) /\
    (v2_y (ev_scroll event) = four ->
     zoom_speed s = quarter ->
     SFltb tenth (sub (radius (spherical s)) one) = true ->
       radius (spherical s2) = sub (radius (spherical s)) one /\
       curr_scroll_offset s2 = zero).
Proof.
  intros event s delta E. cbv zeta.
  rewrite (OnMouseEvent_scrolled event s E).
  set (s1 := set_curr_scroll_offset (set_curr_pos s (ev_position event))
                                    (v2_y (ev_scroll event))).
  assert (Zoomed : do_zoom s1 = true ->
                   curr_scroll_offset (OnUpdate delta s1) = zero /\
                   radius (spherical (OnUpdate delta s1)) =
                     f_max tenth
                       (sub (radius (spherical s))
                            (mul (v2_y (ev_scroll event)) (zoom_speed s)))).
  { intros Z. exact (OnUpdate_zoom delta s1 Z). }
  split; [reflexivity|]. split.
  - intros Z. destruct (Zoomed Z) as [Z0 ZR].
    split; [exact Z0|]. split; [exact ZR|].
    assert (Closed : do_zoom (OnUpdate delta s1) = false).
    { unfold do_zoom. rewrite Z0. reflexivity. }
    split; [exact Closed|].
    intros delta'. apply OnUpdate_no_zoom. exact Closed.
  - intros Y ZS Above.
    assert (Z : do_zoom s1 = true).
    { unfold do_zoom, s1. simpl. rewrite Y. reflexivity. }
    destruct (Zoomed Z) as [Z0 ZR]. split; [|exact Z0].
    rewrite ZR, Y, ZS.
    change (mul four quarter) with one.
    unfold f_max. simpl. rewrite Above. reflexivity.
Qed.
End ScrollFloat32.

(** ** The theorems at concrete inputs *)

Lemma C2_zoom_radius_floor_witness :
  do_zoom Examples.scrolled = true /\
  radius (spherical (OnUpdate Float32.one Examples.scrolled)) = Float32.four /\
  f_leb Float32.tenth
        (radius (spherical (OnUpdate Float32.one Examples.scrolled))) = true.
Proof.
  pose proof (@C2_zoom_radius_floor _ _ _ float32_compare_laws
                Float32.one Examples.scrolled eq_refl) as W.
  split; [reflexivity|]. split.
  - rewrite (proj1 W). vm_compute. reflexivity.
  - exact (proj1 (proj2 W)).
Defined.

Lemma C3_left_drag_witness :
  curr_button Examples.left_drag = ButtonLeft /\
  phi (spherical (OnUpdate Float32.one Examples.left_drag)) =
    Float32.sub (Float32.ratio 785 1000)
                (Float32.mul (Float32.of_Z 100) Float32.hundredth) /\
  theta (spherical (gestures Examples.left_drag)) = Float32.ratio 436 1000.
Proof.
  pose proof (@C3_left_drag _ _ _ Float32.one Examples.left_drag eq_refl) as W.
  cbv zeta in W.
  split; [reflexivity|]. split.
  - rewrite (proj1 (proj2 (proj2 W))). vm_compute. reflexivity.
  - rewrite (proj1 (proj2 W)). vm_compute. reflexivity.
Defined.

Lemma C5_pan_after_zoom_witness :
  curr_button Examples.right_drag = ButtonRight /\
  radius (spherical (OnUpdate Float32.one Examples.right_drag)) = Float32.four /\
  target (OnUpdate Float32.one Examples.right_drag) =
    v3_sub v3_Zero
      (v3_scale
         (v3_sub
            (v3_scale (Camera_Right Examples.cam0) (Float32.of_Z 30))
            (v3_scale (Camera_Up Examples.cam0) (Float32.of_Z 40)))
         (Float32.mul Float32.thousandth Float32.four)).
Proof.
  pose proof (@C5_pan_after_zoom _ _ _ Float32.one Examples.right_drag eq_refl) as W.
  cbv zeta in W.
  split; [reflexivity|]. split.
  - rewrite (proj2 W). vm_compute. reflexivity.
  - rewrite (proj1 W). vm_compute. reflexivity.
Defined.

Lemma C6_gates_pairwise_witness :
  f_eqb Float32.four Float32.zero = false /\
  (exists s : Impl Float32.float32 (CO := LookAtCamera.ops),
      reachable s /\ do_orbit s = true /\ do_pan s = false /\ do_zoom s = true) /\
  (exists s : Impl Float32.float32 (CO := LookAtCamera.ops),
      reachable s /\ do_pan s = true /\ do_orbit s = false /\ do_zoom s = true).
Proof.
  split; [reflexivity|].
  exact (proj2 (@C6_gates_pairwise _ _ _ Examples.cam0 Examples.params0
                  Examples.origin2 Float32.four eq_refl)).
Defined.

Lemma C7_scroll_consumed_once_witness :
  ev_type (Examples.scroll Float32.four) = Scrolled /\
  radius (spherical Examples.fresh) = Float32.five /\
  radius (spherical (OnUpdate Float32.one Examples.scrolled)) = Float32.four /\
  curr_scroll_offset (OnUpdate Float32.one Examples.scrolled) = Float32.zero.
Proof.
  pose proof (@C7_scroll_consumed_once _ (Examples.scroll Float32.four)
                Examples.fresh Float32.one eq_refl) as W.
  cbv zeta in W. destruct W as (_ & _ & W).
  specialize (W eq_refl eq_refl eq_refl).
  split; [reflexivity|]. split; [reflexivity|]. split.
  - unfold Examples.scrolled. rewrite (proj1 W). vm_compute. reflexivity.
  - exact (proj2 W).
Defined.

(** ** The latch on a short run of events *)

Example second_press_is_ignored :
  curr_button
    (OnMouseEvent (Examples.press ButtonRight Examples.origin2)
       (OnMouseEvent (Examples.press ButtonLeft Examples.origin2)
                     Examples.fresh)) = ButtonLeft.
Proof. reflexivity. Qed.

Example release_of_other_button_is_ignored :
  curr_button
    (OnMouseEvent (Examples.release ButtonRight Examples.origin2)
       (OnMouseEvent (Examples.press ButtonLeft Examples.origin2)
                     Examples.fresh)) = ButtonLeft.
Proof. reflexivity. Qed.

Example release_of_held_button_clears :
  curr_button
    (OnMouseEvent (Examples.release ButtonLeft Examples.origin2)
       (OnMouseEvent (Examples.press ButtonLeft Examples.origin2)
                     Examples.fresh)) = ButtonNone.
Proof. reflexivity. Qed.

(** ** Further properties of the controller *)

Section Lifecycle.
Context {F : Type} {FO : FloatOps F} {CO : CameraOps F}.

Lemma OnMouseEvent_frame :
  forall (event : MouseEvent F) (s : Impl F),
    camera (OnMouseEvent event s) = camera s /\
    spherical (OnMouseEvent event s) = spherical s /\
    target (OnMouseEvent event s) = target s /\
    prev_pos (OnMouseEvent event s) = prev_pos s /\
    orbit_speed (OnMouseEvent event s) = orbit_speed s /\
    pan_speed (OnMouseEvent event s) = pan_speed s /\
    zoom_speed (OnMouseEvent event s) = zoom_speed s.
Proof.
  intros event s. unfold OnMouseEvent.
  destruct (ev_type event); simpl;
    destruct (MouseButton_eqb (curr_button s) ButtonNone);
    destruct (MouseButton_eqb (ev_button event) (curr_button s));
    repeat split.
Qed.

Lemma OnMouseEvent_scroll_kept :
  forall (event : MouseEvent F) (s : Impl F),
    ev_type event <> Scrolled ->
    curr_scroll_offset (OnMouseEvent event s) = curr_scroll_offset s.
Proof.
  intros event s. unfold OnMouseEvent.
  destruct (ev_type event); simpl; intros N;
    try (destruct (MouseButton_eqb (curr_button s) ButtonNone));
    try (destruct (MouseButton_eqb (ev_button event) (curr_button s)));
    try reflexivity.
  all: exfalso; apply N; reflexivity.
Qed.

Lemma OnUpdate_speeds :
  forall (delta : F) (s : Impl F),
    orbit_speed (OnUpdate delta s) = orbit_speed s /\
    pan_speed (OnUpdate delta s) = pan_speed s /\
    zoom_speed (OnUpdate delta s) = zoom_speed s.
Proof. intros delta s. exact (gestures_speeds s). Qed.

(** X3.  A pointer event writes [curr_pos], [curr_button] and
    [curr_scroll_offset] and nothing else: the camera, the spherical
    coordinate, the target, [prev_pos] and the three speeds are what they
    were.  Only a frame moves the camera. *)
Theorem X3_events_leave_the_view_alone :
  forall (event : MouseEvent F) (s : Impl F),
    camera (OnMouseEvent event s) = camera s /\
    spherical (OnMouseEvent event s) = spherical s /\
    target (OnMouseEvent event s) = target s /\
    prev_pos (OnMouseEvent event s) = prev_pos s /\
    orbit_speed (OnMouseEvent event s) = orbit_speed s /\
    pan_speed (OnMouseEvent event s) = pan_speed s /\
    zoom_speed (OnMouseEvent event s) = zoom_speed s /\
    (ev_type event <> Scrolled ->
     curr_scroll_offset (OnMouseEvent event s) = curr_scroll_offset s).
Proof.
  intros event s.
  destruct (OnMouseEvent_frame event s) as (A & B & C & D & E & G & H).
  repeat (split; [assumption|]).
  apply OnMouseEvent_scroll_kept.
Qed.

(** X4.  Delivering the same event twice in a row leaves the controller
    where one delivery leaves it. *)
Theorem X4_duplicate_event_is_harmless :
  forall (event : MouseEvent F) (s : Impl F),
    OnMouseEvent event (OnMouseEvent event s) = OnMouseEvent event s.
Proof.
  intros event s. unfold OnMouseEvent.
  destruct (ev_type event); simpl; try reflexivity.
  - destruct (curr_button s) eqn:B; simpl; rewrite ?B; simpl;
      destruct (ev_button event); reflexivity.
  - destruct (curr_button s) eqn:B, (ev_button event) eqn:E; simpl;
      rewrite ?B, ?E; simpl; rewrite ?B, ?E; reflexivity.
Qed.

(** X5.  With no button held, pressing a button and releasing the same
    button, with no frame in between, brings the controller back to the
    state it had, up to the pointer position, which is that of the release
    event. *)
Theorem X5_press_then_release :
  forall (b : MouseButton) (p q : Vector2 F) (sc sc' : Vector2 F) (s : Impl F),
    curr_button s = ButtonNone ->
    OnMouseEvent (mkMouseEvent ButtonReleased q b sc')
      (OnMouseEvent (mkMouseEvent ButtonPressed p b sc) s) =
    set_curr_pos s q.
Proof.
  intros b p q sc sc' s B. unfold OnMouseEvent. simpl. rewrite B. simpl.
  assert (R : MouseButton_eqb b b = true) by (destruct b; reflexivity).
  rewrite R. unfold set_curr_button, set_curr_pos. simpl. rewrite B.
  reflexivity.
Qed.

(** X6.  The three speeds are written by the constructor only: whatever
    events and frames follow, they are the values of the [Parameters]. *)
Theorem X6_speeds_are_fixed :
  forall (cam : Camera F) (params : Parameters F) (t : Impl F),
    evolves (OrbitControls_new cam params) t ->
    orbit_speed t = p_orbit_speed params /\
    pan_speed t = p_pan_speed params /\
    zoom_speed t = p_zoom_speed params.
Proof.
  intros cam params t E. induction E as [|event t E IH|delta t E IH].
  - repeat split.
  - destruct (OnMouseEvent_frame event t) as (_ & _ & _ & _ & A & B & C).
    rewrite A, B, C. exact IH.
  - destruct (OnUpdate_speeds delta t) as (A & B & C).
    rewrite A, B, C. exact IH.
Qed.

(** X7.  What a frame does not do.  It never changes the held button or
    the pointer position, and it leaves [prev_pos] equal to [curr_pos].
    Unless the left button is held, the azimuth angle is kept and the
    polar angle is only clamped; unless the right button is held, the
    target is kept; unless a scroll is pending, the radius and the pending
    scroll are kept. *)
Theorem X7_frame_conditions :
  forall (delta : F) (s : Impl F),
    let s' := OnUpdate delta s in
    curr_button s' = curr_button s /\
    curr_pos s' = curr_pos s /\
    prev_pos s' = curr_pos s /\
    (curr_button s <> ButtonLeft ->
       phi (spherical s') = phi (spherical s) /\
       theta (spherical s') = theta (MakeSafe (spherical s))) /\
    (curr_button s <> ButtonRight -> target s' = target s) /\
    (do_zoom s = false ->
       radius (spherical s') = radius (spherical s) /\
       curr_scroll_offset s' = curr_scroll_offset s).
Proof.
  intros delta s. cbv zeta.
  split; [exact (gestures_curr_button s)|].
  split; [exact (gestures_curr_pos s)|].
  split; [exact (gestures_prev_pos s)|].
  split; [|split].
  - intros N. apply MouseButton_eqb_neq in N.
    unfold OnUpdate. rewrite commit_spherical.
    unfold gestures, do_orbit. rewrite N.
    unfold zoom_step, pan_step, MakeSafe.
    destruct (do_zoom s), (do_pan s); split; reflexivity.
  - intros N. apply MouseButton_eqb_neq in N.
    unfold OnUpdate. rewrite commit_target.
    unfold gestures, do_pan. rewrite N.
    unfold orbit_step, zoom_step.
    destruct (do_orbit s), (do_zoom s); reflexivity.
  - intros Z. split.
    + apply OnUpdate_no_zoom. exact Z.
    + change (curr_scroll_offset (gestures s) = curr_scroll_offset s).
      rewrite gestures_scroll, Z. reflexivity.
Qed.

Context {L : CompareLaws F}.

Lemma new_gates_closed :
  forall (cam : Camera F) (params : Parameters F),
    do_orbit (OrbitControls_new cam params) = false /\
    do_pan (OrbitControls_new cam params) = false /\
    do_zoom (OrbitControls_new cam params) = false.
Proof.
  intros cam params. unfold do_orbit, do_pan, do_zoom, f_neqb. simpl.
  rewrite f_eqb_zero. repeat split.
Qed.

(** X1.  The constructor stores [radius], [yaw] and [pitch] as the radius,
    the azimuth angle [phi] and the polar angle [theta], without clamping
    any of them, and leaves all three gates closed.  The first frame then
    runs no gesture: it clamps the polar angle, keeps the radius of the
    [Parameters] (below [0.1f] too) and the target at the origin, and puts
    the camera at [Zero + ToVector3] of the clamped coordinate. *)
Theorem X1_first_frame :
  forall (cam : Camera F) (params : Parameters F) (delta : F),
    let sp0 := mkSpherical (p_radius params) (p_yaw params) (p_pitch params) in
    let s0 := OrbitControls_new cam params in
    let s1 := OnUpdate delta s0 in
    spherical s0 = sp0 /\
    (do_orbit s0 = false /\ do_pan s0 = false /\ do_zoom s0 = false) /\
    spherical s1 = MakeSafe sp0 /\
    radius (spherical s1) = p_radius params /\
    target s1 = v3_Zero /\
    transform_position (camera s1) = v3_add v3_Zero (ToVector3 (MakeSafe sp0)).
Proof.
  intros cam params delta. cbv zeta.
  destruct (new_gates_closed cam params) as (O & P & Z).
  split; [reflexivity|]. split; [repeat split; assumption|].
  assert (G : gestures (OrbitControls_new cam params) =
              OrbitControls_new cam params).
  { unfold gestures. rewrite O, P, Z. reflexivity. }
  unfold OnUpdate. rewrite G. repeat split.
Qed.

(** X2.  Only a zoom writes the radius.  From a state with no scroll
    pending, frames and events other than [Scrolled], in any number and
    order, keep the radius and never open the zoom gate. *)
Theorem X2_radius_kept_until_scroll :
  forall s t : Impl F,
    do_zoom s = false ->
    scroll_free s t ->
    radius (spherical t) = radius (spherical s) /\ do_zoom t = false.
Proof.
  intros s t Z R. induction R as [|event t R IH N|delta t R IH].
  - split; [reflexivity|exact Z].
  - destruct IH as [IHr IHz]. split.
    + rewrite OnMouseEvent_spherical. exact IHr.
    + unfold do_zoom. rewrite (OnMouseEvent_scroll_kept event t N). exact IHz.
  - destruct IH as [IHr IHz]. split.
    + rewrite (OnUpdate_no_zoom delta t IHz). exact IHr.
    + apply OnUpdate_consumes_scroll.
Qed.
End Lifecycle.

(** ** Properties of the vector headers *)

Section VectorBounds.
Context {F : Type} {FO : FloatOps F} {FM : FloatMath F}.

(** X9.  [operator[]] on [Vector2] and [Vector3]: an index inside
    [0 .. 1] (respectively [0 .. 2]) passes the assertion and selects
    [x], [y] (and [z]); any other index fails the assertion, and a build
    without assertions returns [x] for it. *)
Theorem X9_index_bounds :
  forall (v : Vector2 F) (w : Vector3 F) (i : Z),
    (v2_index v 0 = Some (v2_x v) /\ v2_index v 1 = Some (v2_y v)) /\
    (v3_index w 0 = Some (v3_x w) /\ v3_index w 1 = Some (v3_y w) /\
     v3_index w 2 = Some (v3_z w)) /\
    ((0 <= i < 2)%Z -> v2_index v i = Some (v2_index_release v i)) /\
    ((0 <= i < 3)%Z -> v3_index w i = Some (v3_index_release w i)) /\
    ((i < 0 \/ 2 <= i)%Z ->
       v2_index v i = None /\ v2_index_release v i = v2_x v) /\
    ((i < 0 \/ 3 <= i)%Z ->
       v3_index w i = None /\ v3_index_release w i = v3_x w).
Proof.
  intros v w i.
  split; [split; reflexivity|]. split; [repeat split|].
  split; [|split; [|split]].
  - intros I. unfold v2_index.
    replace ((0 <=? i)%Z && (i <? 2)%Z) with true; [reflexivity|].
    symmetry. apply andb_true_intro. split; [apply Z.leb_le|apply Z.ltb_lt]; lia.
  - intros I. unfold v3_index.
    replace ((0 <=? i)%Z && (i <? 3)%Z) with true; [reflexivity|].
    symmetry. apply andb_true_intro. split; [apply Z.leb_le|apply Z.ltb_lt]; lia.
  - intros I. unfold v2_index, v2_index_release.
    replace ((0 <=? i)%Z && (i <? 2)%Z) with false.
    + split; [reflexivity|].
      destruct i as [|[p|p|]|p]; try reflexivity; exfalso; lia.
    + symmetry. apply andb_false_iff.
      destruct I; [left; apply Z.leb_gt|right; apply Z.ltb_ge]; lia.
  - intros I. unfold v3_index, v3_index_release.
    replace ((0 <=? i)%Z && (i <? 3)%Z) with false.
    + split; [reflexivity|].
      destruct i as [|[p|[p|p|]|]|p]; try reflexivity; exfalso; lia.
    + symmetry. apply andb_false_iff.
      destruct I; [left; apply Z.leb_gt|right; apply Z.ltb_ge]; lia.
Qed.

Lemma f_min_self : forall a : F, f_min a a = a.
Proof. intros a. unfold f_min. destruct (f_ltb a a); reflexivity. Qed.

Lemma f_max_self : forall a : F, f_max a a = a.
Proof. intros a. unfold f_max. destruct (f_ltb a a); reflexivity. Qed.

Lemma f_min_selects : forall a b : F, f_min a b = a \/ f_min a b = b.
Proof. intros a b. unfold f_min. destruct (f_ltb b a); auto. Qed.

Lemma f_max_selects : forall a b : F, f_max a b = a \/ f_max a b = b.
Proof. intros a b. unfold f_max. destruct (f_ltb a b); auto. Qed.

(** X10.  [Min] and [Max] never make up a value: each component of the
    result is the component of one of the two vectors, and a vector
    combined with itself is returned as it is.  This needs no law of
    arithmetic, so it holds with NaN components too. *)
Theorem X10_min_max_select :
  forall a b : Vector3 F,
    v3_Min a a = a /\ v3_Max a a = a /\
    (v3_x (v3_Min a b) = v3_x a \/ v3_x (v3_Min a b) = v3_x b) /\
    (v3_y (v3_Min a b) = v3_y a \/ v3_y (v3_Min a b) = v3_y b) /\
    (v3_z (v3_Min a b) = v3_z a \/ v3_z (v3_Min a b) = v3_z b) /\
    (v3_x (v3_Max a b) = v3_x a \/ v3_x (v3_Max a b) = v3_x b) /\
    (v3_y (v3_Max a b) = v3_y a \/ v3_y (v3_Max a b) = v3_y b) /\
    (v3_z (v3_Max a b) = v3_z a \/ v3_z (v3_Max a b) = v3_z b).
Proof.
  intros [ax ay az] [bx b_y bz]. unfold v3_Min, v3_Max. simpl.
  rewrite !f_min_self, !f_max_self.
  repeat split; (apply f_min_selects || apply f_max_selects).
Qed.

End VectorBounds.

Lemma float32_mul_comm : MulComm Float32.float32.
Proof.
  constructor. intros a b. cbn. unfold Float32.mul, SFmul.
  destruct a as [s|s| |s m e], b as [s'|s'| |s' m' e'];
    try reflexivity; try (rewrite (xorb_comm s s'); reflexivity).
  rewrite (xorb_comm s s'), (Pos.mul_comm m m'), (Z.add_comm e e').
  reflexivity.
Qed.

Section DotCross.
Context {F : Type} {FO : FloatOps F} {FM : FloatMath F}.

(** X12.  [Dot] does not depend on the order of its arguments as soon as
    scalar multiplication commutes, which it does in IEEE-754 arithmetic;
    no law of addition is needed, since the products are summed in the same
    order. *)
Theorem X12_dot_symmetric :
  MulComm F ->
  forall (a b : Vector3 F) (c d : Vector2 F),
    v3_Dot a b = v3_Dot b a /\ v2_Dot c d = v2_Dot d c.
Proof.
  intros M a b c d. unfold v3_Dot, v2_Dot.
  rewrite (f_mul_comm (v3_x a)), (f_mul_comm (v3_y a)), (f_mul_comm (v3_z a)).
  rewrite (f_mul_comm (v2_x c)), (f_mul_comm (v2_y c)).
  split; reflexivity.
Qed.

End DotCross.

(** ** The vector functions on binary32 *)

Section VectorFloat32.
Import Float32 Float32Math.

Lemma sqrt_of_zero :
  forall a : float32, is_zero a = true -> SFeqb (sqrt a) zero = true.
Proof.
  intros [s|s| |s m e] Z; try discriminate Z. reflexivity.
Qed.

(** X21.  On binary32 a vector other than zero can have length zero: when
    the squared length underflows to zero, the member [Normalize] returns
    the vector as it is, not a unit vector, and the free [Normalize]
    returns [Zero()].  [(2^-100, 0, 0)] is such a vector. *)
Theorem X21_normalize_underflow :
  (forall v : Vector3 float32,
      is_zero (v3_Dot v v) = true ->
      v3_Normalize_member v = v /\ v3_Normalize v = v3_Zero) /\
  (finite3 VectorExamples.tiny = true /\
   VectorExamples.tiny <> v3_Zero /\
   is_zero (v3_Dot VectorExamples.tiny VectorExamples.tiny) = true).
Proof.
  split.
  - intros v Z. unfold v3_Normalize_member, v3_Normalize, v3_Length.
    change (@f_eqb float32 Float32.ops) with SFeqb.
    change (@f_sqrt float32 Float32.ops Float32Math.ops) with sqrt.
    change (@f_zero float32 Float32.ops) with zero.
    rewrite (sqrt_of_zero _ Z). split; reflexivity.
  - split; [reflexivity|]. split; [discriminate|reflexivity].
Qed.

Lemma lerp_component_start :
  forall a b : float32,
    is_finite (sub b a) = true -> is_neg_zero a = false ->
    add a (mul (sub b a) zero) = a.
Proof.
  intros a b D A. apply add_zero_r; [exact A|].
  apply mul_zero_r; [exact D|reflexivity].
Qed.

(** X22.  On binary32 [Lerp(v1, v2, 0.0f)] is [v1] when the difference
    [v2 - v1] is finite and [v1] has no negative zero, but
    [Lerp(v1, v2, 1.0f)] need not be [v2]: from [(1e8, 0, 0)] to
    [(1, 0, 0)] it returns [(0, 0, 0)], because [1 - 1e8] rounds to
    [-1e8]. *)
Theorem X22_lerp_on_binary32 :
  (forall v1 v2 : Vector3 float32,
      finite3 (v3_sub v2 v1) = true -> no_neg_zero3 v1 = true ->
      v3_Lerp v1 v2 zero = v1) /\
  (finite3 VectorExamples.far = true /\ finite3 VectorExamples.near = true /\
   v3_Lerp VectorExamples.far VectorExamples.near one = v3_Zero /\
   v3_Lerp VectorExamples.far VectorExamples.near one <> VectorExamples.near).
Proof.
  split.
  - intros [ax ay az] [bx b_y bz]. unfold finite3, no_neg_zero3. simpl.
    intros D N.
    repeat match goal with
           | H : _ && _ = true |- _ => apply andb_prop in H; destruct H
           | H : negb _ = true |- _ => apply negb_true_iff in H
           end.
    unfold v3_Lerp, v3_add, v3_scale, v3_sub. simpl.
    change (@f_add float32 Float32.ops) with add.
    change (@f_mul float32 Float32.ops) with mul.
    change (@f_sub float32 Float32.ops) with sub.
    rewrite !lerp_component_start by assumption. reflexivity.
  - split; [reflexivity|]. split; [reflexivity|].
    split; [vm_compute; reflexivity|vm_compute; discriminate].
Qed.
End VectorFloat32.

(** ** The further properties at concrete inputs *)

Lemma X1_first_frame_witness :
  CompareLaws Float32.float32 /\
  radius (spherical
            (OnUpdate Float32.one
               (OrbitControls_new Examples.cam0
                  (mkParameters Float32.hundredth Float32.one Float32.one
                     Float32.hundredth Float32.thousandth Float32.quarter)))) =
    Float32.hundredth /\
  f_leb Float32.tenth Float32.hundredth = false.
Proof.
  split; [exact float32_compare_laws|]. split; [|reflexivity].
  exact (proj1 (proj2 (proj2 (proj2
    (@X1_first_frame _ _ _ float32_compare_laws Examples.cam0
       (mkParameters Float32.hundredth Float32.one Float32.one
          Float32.hundredth Float32.thousandth Float32.quarter)
       Float32.one))))).
Defined.

Lemma X2_radius_kept_until_scroll_witness :
  do_zoom Examples.left_drag = false /\
  radius (spherical
            (OnUpdate Float32.one
               (OnMouseEvent
                  (Examples.release ButtonLeft Examples.origin2)
                  (OnUpdate Float32.one Examples.left_drag)))) = Float32.five.
Proof.
  split; [reflexivity|].
  refine (proj1 (@X2_radius_kept_until_scroll _ _ _ float32_compare_laws
                   Examples.left_drag _ eq_refl _)).
  apply scroll_free_update. apply scroll_free_event.
  - apply scroll_free_update. apply scroll_free_here.
  - discriminate.
Defined.

Lemma X5_press_then_release_witness :
  curr_button Examples.fresh = ButtonNone /\
  OnMouseEvent (Examples.release ButtonLeft Examples.origin2)
    (OnMouseEvent (Examples.press ButtonLeft Examples.origin2) Examples.fresh) =
  set_curr_pos Examples.fresh Examples.origin2.
Proof.
  split; [reflexivity|].
  exact (@X5_press_then_release _ _ ButtonLeft Examples.origin2
           Examples.origin2 Examples.origin2 Examples.origin2
           Examples.fresh eq_refl).
Defined.

Lemma X6_speeds_are_fixed_witness :
  evolves Examples.fresh (OnUpdate Float32.one Examples.right_drag) /\
  orbit_speed (OnUpdate Float32.one Examples.right_drag) = Float32.hundredth /\
  pan_speed (OnUpdate Float32.one Examples.right_drag) = Float32.thousandth /\
  zoom_speed (OnUpdate Float32.one Examples.right_drag) = Float32.quarter.
Proof.
  assert (E : evolves Examples.fresh (OnUpdate Float32.one Examples.right_drag)).
  { apply evolves_update. unfold Examples.right_drag.
    do 2 apply evolves_event. apply evolves_here. }
  split; [exact E|].
  exact (@X6_speeds_are_fixed _ _ _ Examples.cam0 Examples.params0 _ E).
Defined.

Lemma X12_dot_symmetric_witness :
  MulComm Float32.float32 /\
  v3_Dot VectorExamples.u123 VectorExamples.u456 =
  v3_Dot VectorExamples.u456 VectorExamples.u123 /\
  v3_Dot VectorExamples.u123 VectorExamples.u456 = Float32.of_Z 32.
Proof.
  split; [exact float32_mul_comm|]. split; [|vm_compute; reflexivity].
  exact (proj1 (@X12_dot_symmetric _ _ float32_mul_comm
                  VectorExamples.u123 VectorExamples.u456
                  (mkVector2 Float32.one Float32.four)
                  (mkVector2 Float32.five Float32.one))).
Defined.

(** ** Order of binary32 *)

Lemma SFcompare_antisym :
  forall a b : Float32.float32,
    SFcompare b a =
    match SFcompare a b with Some c => Some (CompOpp c) | None => None end.
Proof.
  intros [s|s| |s m e] [s'|s'| |s' m' e']; simpl;
    try reflexivity;
    try (destruct s; reflexivity);
    try (destruct s'; reflexivity);
    try (destruct s, s'; reflexivity).
  destruct s, s'; try reflexivity.
  - rewrite (Z.compare_antisym e e').
    pose proof (Pos.compare_cont_antisym m m' Eq) as P. simpl in P.
    destruct (e ?= e')%Z; simpl; try reflexivity.
    rewrite <- P. destruct (Pos.compare_cont Eq m m'); reflexivity.
  - rewrite (Z.compare_antisym e e').
    pose proof (Pos.compare_cont_antisym m m' Eq) as P. simpl in P.
    destruct (e ?= e')%Z; simpl; try reflexivity.
    rewrite <- P. destruct (Pos.compare_cont Eq m m'); reflexivity.
Qed.

Lemma SFcompare_defined :
  forall a b : Float32.float32,
    is_nan a = false -> is_nan b = false -> SFcompare a b <> None.
Proof.
  intros [s|s| |s m e] [s'|s'| |s' m' e'] A B; simpl;
    try discriminate A; try discriminate B; try discriminate.
Qed.

(** Two binary32 numbers, neither of them NaN, are comparable. *)
Lemma float32_not_lt_le :
  forall a b : Float32.float32,
    is_nan a = false -> is_nan b = false ->
    SFltb a b = false -> SFleb b a = true.
Proof.
  intros a b A B. unfold SFltb, SFleb.
  pose proof (SFcompare_defined a b A B) as D.
  rewrite (SFcompare_antisym a b).
  destruct (SFcompare a b) as [[]|]; simpl; intros E;
    try reflexivity; try discriminate E.
  exfalso. apply D. reflexivity.
Qed.

Lemma float32_le_refl :
  forall a : Float32.float32, is_nan a = false -> SFleb a a = true.
Proof.
  intros a A. apply float32_not_lt_le; try assumption.
  unfold SFltb. pose proof (float32_compare_refl a) as N.
  destruct (SFcompare a a) as [[]|]; try reflexivity.
  exfalso. apply N. reflexivity.
Qed.


Lemma float32_le_not_gt :
  forall a b : Float32.float32, SFleb a b = true -> SFltb b a = false.
Proof.
  intros a b. unfold SFleb, SFltb. rewrite (SFcompare_antisym a b).
  destruct (SFcompare a b) as [[]|]; simpl; intros E;
    try reflexivity; discriminate E.
Qed.

(** With any sine and cosine, and with any margin [eps] and constant [pi]
    such that [eps <= pi - eps], binary32 satisfies [CompareLaws]. *)
Lemma float32_with_compare_laws :
  forall (fsin fcos : Float32.float32 -> Float32.float32)
         (eps pi : Float32.float32),
    SFleb eps (Float32.sub pi eps) = true ->
    @CompareLaws Float32.float32 (float32_ops_with fsin fcos eps pi).
Proof.
  intros fsin fcos eps pi I. constructor.
  - exact (@f_ltb_leb _ _ float32_compare_laws).
  - exact (@f_ltb_irrefl _ _ float32_compare_laws).
  - reflexivity.
  - reflexivity.
  - exact (float32_le_not_gt _ _ I).
Qed.

(** ** The safety clamp and idle frames on binary32 *)

Section SphericalFloat32.
Import Float32.
Context {CO : CameraOps float32}.
Variables (fsin fcos : float32 -> float32) (eps pi : float32).

#[local] Abbreviation W := (float32_ops_with fsin fcos eps pi).




Lemma gestures_with :
  forall s : Impl float32,
    gestures (FO := W) s = gestures (FO := Float32.ops) s /\
    do_zoom (FO := W) s = do_zoom (FO := Float32.ops) s.
Proof.
  intros s.
  unfold gestures, pointer_offset, do_orbit, do_pan, do_zoom, orbit_step,
    zoom_step, pan_step, f_neqb, f_max, v2_sub, v3_sub, v3_scale,
    v3_sub_assign.
  cbn [f_zero f_min_radius f_add f_sub f_mul f_eqb f_ltb
       float32_ops_with Float32.ops].
  split; reflexivity.
Qed.

Lemma gestures_idle_with :
  forall s : Impl float32,
    tame s = true -> prev_pos s = curr_pos s ->
    do_zoom (FO := W) s = false ->
    gestures (FO := W) s = s.
Proof.
  intros s T P D.
  destruct (gestures_with s) as [G Z]. rewrite G. rewrite Z in D.
  exact (gestures_idle_float32 s T P D).
Qed.

(** C9, as the code has it on binary32, for any sine and cosine and any
    margin with [eps <= pi - eps].  If the state that one [OnUpdate]
    leaves is tame (pointer position, orbit speed, pan speed times radius
    and camera basis finite; no negative zero among the angles and the
    target), then a second [OnUpdate] with no event in between changes
    nothing: the whole controller state, which holds the camera with its
    position and orientation, the spherical coordinate and the target, is
    the state after the first, because [prev_pos] equals [curr_pos] and no
    scroll is pending. *)
Theorem C9_idle_frame_tame :
  SFleb eps (sub pi eps) = true ->
  forall (delta1 delta2 : float32) (s : Impl float32),
    let s1 := OnUpdate (FO := W) delta1 s in
    let s2 := OnUpdate (FO := W) delta2 s1 in
    tame s1 = true ->
    s2 = s1 /\
    transform_position (camera s2) = transform_position (camera s1) /\
    orientation (camera s2) = orientation (camera s1) /\
    spherical s2 = spherical s1 /\
    target s2 = target s1 /\
    prev_pos s1 = curr_pos s1 /\
    do_zoom (FO := W) s1 = false.
Proof.
  intros I delta1 delta2 s. cbv zeta. intros T.
  pose proof (float32_with_compare_laws fsin fcos eps pi I) as L.
  assert (P : prev_pos (OnUpdate (FO := W) delta1 s) =
              curr_pos (OnUpdate (FO := W) delta1 s)).
  { change (prev_pos (gestures (FO := W) s) = curr_pos (gestures (FO := W) s)).
    rewrite gestures_prev_pos, gestures_curr_pos. reflexivity. }
  pose proof (@OnUpdate_consumes_scroll _ W _ L delta1 s) as D.
  assert (G : gestures (FO := W) (OnUpdate (FO := W) delta1 s) =
              OnUpdate (FO := W) delta1 s).
  { exact (gestures_idle_with _ T P D). }
  assert (E : OnUpdate (FO := W) delta2 (OnUpdate (FO := W) delta1 s) =
              OnUpdate (FO := W) delta1 s).
  { unfold OnUpdate at 1. rewrite G. unfold OnUpdate.
    apply (@commit_idempotent _ W _ L). }
  rewrite E. repeat split; assumption.
Qed.
End SphericalFloat32.


(** C9, as stated, fails on binary32.  After a left press and a pointer
    event at [x = +infinity], one frame leaves the azimuth angle at
    [-infinity]; the next frame, with no event in between, reads the offset
    [infinity - infinity], which is NaN, and turns the azimuth angle into
    NaN: the spherical coordinate changes on an idle frame. *)
Lemma C9_idle_frame_changes_runaway_drag :
  reachable EdgeExamples.runaway_drag /\
  phi (spherical (OnUpdate Float32.one EdgeExamples.runaway_drag)) =
    S754_infinity true /\
  phi (spherical
         (OnUpdate Float32.one
            (OnUpdate Float32.one EdgeExamples.runaway_drag))) = S754_nan /\
  spherical (OnUpdate Float32.one
               (OnUpdate Float32.one EdgeExamples.runaway_drag)) <>
  spherical (OnUpdate Float32.one EdgeExamples.runaway_drag).
Proof.
  assert (A : phi (spherical (OnUpdate Float32.one EdgeExamples.runaway_drag))
              = S754_infinity true) by (vm_compute; reflexivity).
  assert (B : phi (spherical
                     (OnUpdate Float32.one
                        (OnUpdate Float32.one EdgeExamples.runaway_drag)))
              = S754_nan) by (vm_compute; reflexivity).
  split.
  - unfold EdgeExamples.runaway_drag. do 2 apply reach_event. apply reach_new.
  - split; [exact A|]. split; [exact B|].
    intros E. rewrite E in B. rewrite A in B. discriminate B.
Qed.


Lemma C9_idle_frame_tame_witness :
  SFleb Float32.thousandth (Float32.sub Float32.pi Float32.thousandth) = true /\
  tame (OnUpdate Float32.one Examples.left_drag) = true /\
  OnUpdate Float32.four (OnUpdate Float32.one Examples.left_drag) =
    OnUpdate Float32.one Examples.left_drag.
Proof.
  assert (T : tame (OnUpdate Float32.one Examples.left_drag) = true)
    by (vm_compute; reflexivity).
  split; [reflexivity|]. split; [exact T|].
  exact (proj1 (@C9_idle_frame_tame _ Float32.sin_cubic Float32.cos_quadratic
                  Float32.thousandth Float32.pi eq_refl
                  Float32.one Float32.four Examples.left_drag T)).
Defined.

(** ** [Min], [Max] and [Cross] on binary32 *)

Section VectorOrderFloat32.
Import Float32.

Lemma f_min_lower_float32 :
  forall a b : float32,
    is_nan a = false -> is_nan b = false ->
    SFleb (f_min a b) a = true /\ SFleb (f_min a b) b = true.
Proof.
  intros a b A B. unfold f_min.
  change (@f_ltb float32 Float32.ops) with SFltb.
  destruct (SFltb b a) eqn:E.
  - split; [exact (@f_ltb_leb _ _ float32_compare_laws b a E)|].
    exact (float32_le_refl b B).
  - split; [exact (float32_le_refl a A)|].
    exact (float32_not_lt_le b a B A E).
Qed.

Lemma f_max_upper_float32 :
  forall a b : float32,
    is_nan a = false -> is_nan b = false ->
    SFleb a (f_max a b) = true /\ SFleb b (f_max a b) = true.
Proof.
  intros a b A B. unfold f_max.
  change (@f_ltb float32 Float32.ops) with SFltb.
  destruct (SFltb a b) eqn:E.
  - split; [exact (@f_ltb_leb _ _ float32_compare_laws a b E)|].
    exact (float32_le_refl b B).
  - split; [exact (float32_le_refl a A)|].
    exact (float32_not_lt_le a b A B E).
Qed.

(** X11.  On binary32, for vectors without a NaN component, [a.Min(b)] is
    below both vectors and [a.Max(b)] is above both, component by
    component, for [Vector3] and for [Vector2]. *)
Theorem X11_min_max_bound_float32 :
  forall (a b : Vector3 float32) (c d : Vector2 float32),
    no_nan3 a = true -> no_nan3 b = true ->
    no_nan2 c = true -> no_nan2 d = true ->
    v3_all SFleb (v3_Min a b) a = true /\
    v3_all SFleb (v3_Min a b) b = true /\
    v3_all SFleb a (v3_Max a b) = true /\
    v3_all SFleb b (v3_Max a b) = true /\
    v2_all SFleb (v2_Min c d) c = true /\
    v2_all SFleb (v2_Min c d) d = true /\
    v2_all SFleb c (v2_Max c d) = true /\
    v2_all SFleb d (v2_Max c d) = true.
Proof.
  intros [ax ay az] [bx b_y bz] [cx cy] [dx dy].
  unfold no_nan3, no_nan2. simpl. intros A B C D.
  repeat match goal with
         | H : _ && _ = true |- _ => apply andb_prop in H; destruct H
         | H : negb _ = true |- _ => apply negb_true_iff in H
         end.
  unfold v3_all, v2_all, v3_Min, v3_Max, v2_Min, v2_Max. simpl.
  repeat split;
    repeat (apply andb_true_intro; split);
    first [ refine (proj1 (f_min_lower_float32 _ _ _ _))
          | refine (proj2 (f_min_lower_float32 _ _ _ _))
          | refine (proj1 (f_max_upper_float32 _ _ _ _))
          | refine (proj2 (f_max_upper_float32 _ _ _ _)) ];
    assumption.
Qed.

(** X13.  On binary32 the cross product of a vector with itself is
    [Vector3::Zero()] whenever the three products [y * z], [z * x] and
    [x * y] of its components are finite: multiplication commutes, and a
    finite number minus itself is [+0]. *)
Theorem X13_cross_self_float32 :
  forall a : Vector3 float32,
    is_finite (mul (v3_y a) (v3_z a)) = true ->
    is_finite (mul (v3_z a) (v3_x a)) = true ->
    is_finite (mul (v3_x a) (v3_y a)) = true ->
    v3_Cross a a = v3_Zero.
Proof.
  intros [x y z]. simpl. intros YZ ZX XY.
  unfold v3_Cross, v3_Zero. simpl.
  change (@f_sub float32 Float32.ops) with sub.
  change (@f_mul float32 Float32.ops) with mul.
  change (@f_zero float32 Float32.ops) with zero.
  pose proof (@f_mul_comm _ _ float32_mul_comm) as C. cbn in C.
  rewrite (C z y), (C x z), (C y x).
  rewrite (sub_self _ YZ), (sub_self _ ZX), (sub_self _ XY). reflexivity.
Qed.

Lemma sub_pos_zero_r : forall a : float32, sub a zero = a.
Proof. intros [s|s| |s m e]; try reflexivity. destruct s; reflexivity. Qed.

Lemma zero_sub_zero :
  forall z : float32, is_zero z = true -> sub zero z = zero.
Proof.
  intros [s|s| |s m e] Z; try discriminate Z. destruct s; reflexivity.
Qed.

Lemma zero_sub_product_l :
  forall t : float32, is_finite t = true -> sub zero (mul zero t) = zero.
Proof.
  intros t T. apply zero_sub_zero. apply mul_zero_l; [reflexivity|exact T].
Qed.

Lemma zero_sub_product_r :
  forall s : float32, is_finite s = true -> sub zero (mul s zero) = zero.
Proof.
  intros s S. apply zero_sub_zero. apply mul_zero_r; [exact S|reflexivity].
Qed.

(** X16.  On binary32 [Cross] is right-handed along the axes: for finite
    [s] and [t], [Cross((s,0,0), (0,t,0))] is [(0,0,s*t)],
    [Cross((0,s,0), (0,0,t))] is [(s*t,0,0)] and
    [Cross((0,0,s), (t,0,0))] is [(0,s*t,0)], with zeros that are [+0]
    whatever the signs of [s] and [t].  In particular
    [Right x Up = Forward], [Up x Forward = Right] and
    [Forward x Right = Up]. *)
Theorem X16_cross_along_axes_float32 :
  forall s t : float32,
    is_finite s = true -> is_finite t = true ->
    v3_Cross (mkVector3 s zero zero) (mkVector3 zero t zero) =
      mkVector3 zero zero (mul s t) /\
    v3_Cross (mkVector3 zero s zero) (mkVector3 zero zero t) =
      mkVector3 (mul s t) zero zero /\
    v3_Cross (mkVector3 zero zero s) (mkVector3 t zero zero) =
      mkVector3 zero (mul s t) zero /\
    v3_Cross (v3_Right (F := float32)) v3_Up = v3_Forward /\
    v3_Cross (v3_Up (F := float32)) v3_Forward = v3_Right /\
    v3_Cross (v3_Forward (F := float32)) v3_Right = v3_Up.
Proof.
  intros s t S T.
  assert (Z00 : mul zero zero = zero) by reflexivity.
  unfold v3_Cross, v3_Right, v3_Up, v3_Forward.
  cbn [v3_x v3_y v3_z f_sub f_mul f_zero f_one Float32.ops].
  rewrite !Z00, !sub_pos_zero_r.
  rewrite (zero_sub_product_l t T), (zero_sub_product_r s S).
  repeat split.
Qed.
End VectorOrderFloat32.

Lemma X11_min_max_bound_float32_witness :
  no_nan3 VectorExamples.u123 = true /\ no_nan3 VectorExamples.u456 = true /\
  v3_Min VectorExamples.u456 VectorExamples.u123 = VectorExamples.u123 /\
  v3_all SFleb (v3_Min VectorExamples.u456 VectorExamples.u123)
         VectorExamples.u456 = true.
Proof.
  pose proof (@X11_min_max_bound_float32
                VectorExamples.u456 VectorExamples.u123
                (mkVector2 Float32.one Float32.four)
                (mkVector2 Float32.five Float32.one)
                eq_refl eq_refl eq_refl eq_refl) as W.
  split; [reflexivity|]. split; [reflexivity|].
  split; [vm_compute; reflexivity|exact (proj1 W)].
Defined.

Lemma X13_cross_self_float32_witness :
  Float32.is_finite (Float32.mul (v3_y VectorExamples.u456) (v3_z VectorExamples.u456))
    = true /\
  v3_Cross VectorExamples.u456 VectorExamples.u456 = v3_Zero.
Proof.
  split; [reflexivity|].
  exact (@X13_cross_self_float32 VectorExamples.u456 eq_refl eq_refl eq_refl).
Defined.

Lemma X16_cross_along_axes_float32_witness :
  Float32.is_finite Float32.four = true /\
  Float32.is_finite Float32.five = true /\
  v3_Cross (mkVector3 Float32.four Float32.zero Float32.zero)
           (mkVector3 Float32.zero Float32.five Float32.zero) =
    mkVector3 Float32.zero Float32.zero (Float32.of_Z 20).
Proof.
  pose proof (@X16_cross_along_axes_float32 Float32.four Float32.five
                eq_refl eq_refl) as W.
  split; [reflexivity|]. split; [reflexivity|].
  rewrite (proj1 W). vm_compute. reflexivity.
Defined.
